(** * EventHub: a shallow embedding of [server.js]

    The application is one Express server over three SQLite tables.  The
    development below embeds

    - the JavaScript built-ins the handlers call on their inputs
      ([String.prototype.trim], [String.prototype.toLowerCase], [Number],
      the relational operators on numbers),
    - the three tables with their constraints and the SQL statements the
      handlers prepare,
    - the handlers themselves, as functions from the store, the session
      and the request to the new store, the new session and the response,
    - the server as a transition system over stores and issued sessions,

    and then states the properties of the handlers as theorems.

    Conventions.  A JavaScript string is a sequence of UTF-16 code units;
    here a string is a Rocq [string], read as a sequence of code units
    below 256 (the Latin-1 block), and the built-ins are the JavaScript
    ones restricted to that block.  A form field is absent, a string, an
    array or an object, as the extended url-encoded parser yields them; a
    handler that calls a string method on an array or object throws.  A
    JavaScript number is a binary64 value; a finite one is kept as the
    rational it denotes, and a decimal literal is rounded to it by the
    division of [SpecFloat].  bcrypt, SQLite's [datetime], the order its
    sorter gives rows of equal key and the SMTP transport are
    parameters. *)

From Stdlib Require Import Bool List ZArith QArith Lia Permutation Sorted.
From Stdlib Require Import Ascii String SpecFloat OrderedTypeEx.
Import ListNotations.

Local Open Scope string_scope.
Local Open Scope Z_scope.

(* ================================================================== *)
(** ** JavaScript strings *)

Module JsString.

(** Code units that [trim] (and the numeric-literal grammar) strip:
    TAB, LF, VT, FF, CR, SPACE and NBSP.  The remaining white space of
    ECMAScript lies above U+00FF. *)
Definition is_white (c : ascii) : bool :=
  let n := N_of_ascii c in
  ((9 <=? n) && (n <=? 13) || (n =? 32) || (n =? 160))%N.

Fixpoint trimStart (s : string) : string :=
  match s with
  | EmptyString => EmptyString
  | String c r => if is_white c then trimStart r else s
  end.

Fixpoint trimEnd (s : string) : string :=
  match s with
  | EmptyString => EmptyString
  | String c r =>
      match trimEnd r with
      | EmptyString => if is_white c then EmptyString else String c EmptyString
      | r' => String c r'
      end
  end.

(** [s.trim()] *)
Definition trim (s : string) : string := trimEnd (trimStart s).

(** Lower-case mapping of one code unit: A-Z, and the Latin-1 capitals
    U+00C0..U+00DE without the multiplication sign U+00D7. *)
Definition lower_char (c : ascii) : ascii :=
  let n := N_of_ascii c in
  if ((65 <=? n) && (n <=? 90)
      || (192 <=? n) && (n <=? 214)
      || (216 <=? n) && (n <=? 222))%N
  then ascii_of_N (n + 32) else c.

(** [s.toLowerCase()] *)
Fixpoint toLowerCase (s : string) : string :=
  match s with
  | EmptyString => EmptyString
  | String c r => String (lower_char c) (toLowerCase r)
  end.

(** Truthiness of a string: every string but the empty one. *)
Definition truthy (s : string) : bool :=
  match s with EmptyString => false | _ => true end.

(** [v || d] for a form field [v] that is a string or [undefined]. *)
Definition or_default (v : option string) (d : string) : string :=
  match v with
  | Some s => if truthy s then s else d
  | None => d
  end.

(** Truthiness of a form field. *)
Definition field_truthy (v : option string) : bool :=
  match v with Some s => truthy s | None => false end.

End JsString.

(* ================================================================== *)
(** ** JavaScript numbers *)

Module JsNumber.

(** A number is NaN, an infinity or a finite binary64 value, kept as the
    rational it denotes in lowest terms.  The two zeros are one value: no
    operation of the server tells them apart. *)
Inductive number : Type :=
| NaN
| Inf (negative : bool)
| Fin (q : Q).

Definition of_Z (z : Z) : number := Fin (inject_Z z).

(** The value of a binary64 datum. *)
Definition of_spec_float (f : spec_float) : number :=
  match f with
  | S754_zero _ => Fin 0
  | S754_infinity s => Inf s
  | S754_nan => NaN
  | S754_finite s m e =>
      let z := if s then Zneg m else Zpos m in
      match e with
      | Zneg p => Fin (Qred (z # Pos.shiftl 1 (Npos p)))
      | _ => Fin (inject_Z (z * 2 ^ e))
      end
  end.

(** [n / d] rounded to the nearest binary64 value, ties to even. *)
Definition round_ratio (negative : bool) (n d : positive) : number :=
  of_spec_float
    (SFdiv 53 1024 (S754_finite negative n 0) (S754_finite false d 0)).

(** [m * 10^e] rounded to binary64: the value of a decimal literal. *)
Definition round_decimal (negative : bool) (m e : Z) : number :=
  match m with
  | Zpos p =>
      match e with
      | Zneg k => round_ratio negative p (Pos.pow 10 k)
      | Z0 => round_ratio negative p 1
      | Zpos k => round_ratio negative (p * Pos.pow 10 k) 1
      end
  | _ => Fin 0
  end.

(** *** The relational operators *)

Definition Qltb (x y : Q) : bool := negb (Qle_bool y x).

(** [a < b] *)
Definition num_lt (a b : number) : bool :=
  match a, b with
  | NaN, _ | _, NaN => false
  | Fin x, Fin y => Qltb x y
  | Inf true, Inf true => false
  | Inf true, _ => true
  | _, Inf true => false
  | Inf false, _ => false
  | Fin _, Inf false => true
  end.

(** [a > b] *)
Definition num_gt (a b : number) : bool := num_lt b a.

(** [a >= b]: false when either side is NaN, otherwise not [a < b]. *)
Definition num_ge (a b : number) : bool :=
  match a, b with
  | NaN, _ | _, NaN => false
  | _, _ => negb (num_lt a b)
  end.

(** [Number.isFinite(a)] *)
Definition isFinite (a : number) : bool :=
  match a with Fin _ => true | _ => false end.

(** The integer a number denotes, when it denotes one. *)
Definition integer_value (a : number) : option Z :=
  match a with
  | Fin q =>
      if (Qnum q mod Zpos (Qden q) =? 0) then Some (Qnum q / Zpos (Qden q))
      else None
  | _ => None
  end.

(** *** [Number(s)] on a string: the StringNumericLiteral grammar *)

Definition digit_value (base : Z) (c : ascii) : option Z :=
  let n := Z.of_N (N_of_ascii c) in
  let v := if (48 <=? n) && (n <=? 57) then n - 48
           else if (97 <=? n) && (n <=? 102) then n - 87
           else if (65 <=? n) && (n <=? 70) then n - 55
           else 16 in
  if v <? base then Some v else None.

(** Reads the longest prefix of digits of the base: the value
    accumulated onto [acc], the number of digits, the rest. *)
Fixpoint read_digits (base : Z) (s : string) (acc : Z) (count : Z)
  : Z * Z * string :=
  match s with
  | EmptyString => (acc, count, s)
  | String c r =>
      match digit_value base c with
      | Some v => read_digits base r (acc * base + v) (count + 1)
      | None => (acc, count, s)
      end
  end.

(** A leading sign: whether it is a minus, and the rest. *)
Definition read_sign (s : string) : bool * string :=
  match s with
  | String "-" r => (true, r)
  | String "+" r => (false, r)
  | _ => (false, s)
  end.

(** ExponentPart, optional, up to the end of the literal. *)
Definition read_exponent (s : string) : option Z :=
  match s with
  | EmptyString => Some 0
  | String c r =>
      if (Ascii.eqb c "e" || Ascii.eqb c "E")%bool then
        let '(neg, r1) := read_sign r in
        match read_digits 10 r1 0 0 with
        | (v, n, EmptyString) =>
            if 0 <? n then Some (if neg then - v else v) else None
        | _ => None
        end
      else None
  end.

(** StrUnsignedDecimalLiteral without [Infinity]: mantissa and decimal
    exponent. *)
Definition read_unsigned_decimal (s : string) : option (Z * Z) :=
  let '(ip, ni, r1) := read_digits 10 s 0 0 in
  match r1 with
  | String "." r2 =>
      let '(m, nf, r3) := read_digits 10 r2 ip 0 in
      if (ni =? 0) && (nf =? 0) then None
      else match read_exponent r3 with
           | Some e => Some (m, e - nf)
           | None => None
           end
  | _ =>
      if ni =? 0 then None
      else match read_exponent r1 with
           | Some e => Some (ip, e)
           | None => None
           end
  end.

(** NonDecimalIntegerLiteral: [0x], [0o], [0b] and their capitals. *)
Definition read_radix (s : string) : option (Z * string) :=
  match s with
  | String "0" (String c r) =>
      if (Ascii.eqb c "x" || Ascii.eqb c "X")%bool then Some (16, r)
      else if (Ascii.eqb c "o" || Ascii.eqb c "O")%bool then Some (8, r)
      else if (Ascii.eqb c "b" || Ascii.eqb c "B")%bool then Some (2, r)
      else None
  | _ => None
  end.

(** [Number(s)] on a string *)
Definition Number (s : string) : number :=
  let t := JsString.trim s in
  match t with
  | EmptyString => Fin 0
  | _ =>
      match read_radix t with
      | Some (base, r) =>
          match read_digits base r 0 0 with
          | (v, n, EmptyString) =>
              if 0 <? n then round_decimal false v 0 else NaN
          | _ => NaN
          end
      | None =>
          let '(neg, r) := read_sign t in
          if String.eqb r "Infinity" then Inf neg
          else match read_unsigned_decimal r with
               | Some (m, e) => round_decimal neg m e
               | None => NaN
               end
      end
  end.

(** [Number(v || d)] for a form field or environment variable [v] and a
    numeric literal [d]: [Number] is the identity on a number. *)
Definition Number_or (v : option string) (d : Z) : number :=
  match v with
  | Some s => if JsString.truthy s then Number s else of_Z d
  | None => of_Z d
  end.

End JsNumber.

(* ================================================================== *)
(** ** The values of a parsed form *)

Module JsValue.

#[local] Set Warnings "-register-all".

(** What [express.urlencoded({ extended: true })] puts under a field
    name: a string ([a=x]), an array ([a=x&a=y], [a[]=x]) or an object
    ([a[k]=x]), nested at will. *)
Inductive value : Type :=
| Text (s : string)
| Array (items : list value)
| Object (members : list (string * value)).

(** Truthiness: every array and every object is truthy. *)
Definition truthy_value (v : value) : bool :=
  match v with
  | Text s => JsString.truthy s
  | _ => true
  end.

(** Truthiness of a field that may be [undefined]. *)
Definition present (v : option value) : bool :=
  match v with Some v => truthy_value v | None => false end.

(** [v || d] for a field [v] and a string [d]. *)
Definition or_text (v : option value) (d : string) : value :=
  match v with
  | Some v => if truthy_value v then v else Text d
  | None => Text d
  end.

(** [v.trim()]: arrays and objects have no such method, and the call
    throws a TypeError ([None]). *)
Definition trim_of (v : value) : option string :=
  match v with
  | Text s => Some (JsString.trim s)
  | _ => None
  end.

(** [String(v)]: an array is its elements joined by commas, an object is
    the text [[object Object]]. *)
Fixpoint to_string (v : value) : string :=
  match v with
  | Text s => s
  | Array items =>
      (fix join (l : list value) : string :=
         match l with
         | [] => ""
         | [x] => to_string x
         | x :: rest => to_string x ++ "," ++ join rest
         end) items
  | Object _ => "[object Object]"
  end.

(** [Number(v || d)] for a field [v] and a numeric literal [d]: an array
    or object is converted through its string. *)
Definition Number_or_value (v : option value) (d : Z) : JsNumber.number :=
  match v with
  | Some v => if truthy_value v then JsNumber.Number (to_string v)
              else JsNumber.of_Z d
  | None => JsNumber.of_Z d
  end.

(** What better-sqlite3 binds to one [?] for a value handed to [run]:
    a string as it is; an array is spread over the parameters, so only
    an array of one string fills the one place; every other value makes
    [run] throw ([None]). *)
Definition bind_text (v : option value) : option string :=
  match v with
  | Some (Text t) => Some t
  | Some (Array [Text t]) => Some t
  | _ => None
  end.

End JsValue.

Import JsString JsNumber JsValue.

(* ================================================================== *)
(** ** The store: three tables and the prepared statements *)

(** Rows of [users], [events] and [registrations].  The [created_at]
    columns are written by the store and read by the views only; they are
    left out. *)
Record User : Type := {
  u_id : Z;
  u_name : string;
  u_email : string;
  u_password_hash : string
}.

Record Event : Type := {
  e_id : Z;
  e_host_user_id : Z;
  e_title : string;
  e_description : string;
  e_location : string;
  e_starts_at : string;
  e_capacity : number
}.

(** [event_id] holds the number the handler bound: SQLite's INTEGER
    affinity keeps its value. *)
Record Registration : Type := {
  r_id : Z;
  r_event_id : number;
  r_user_id : Z
}.

(** Tables are lists in insertion order, which is rowid order. *)
Record Store : Type := {
  users : list User;
  events : list Event;
  registrations : list Registration
}.

Definition empty_store : Store :=
  {| users := []; events := []; registrations := [] |}.

(** AUTOINCREMENT: one more than the largest rowid.  No statement of the
    application deletes a row, so the largest rowid ever used is the
    largest one present. *)
Definition next_rowid (ids : list Z) : Z := 1 + fold_right Z.max 0 ids.

(** SQL [=] between a bound number and an integer column, and between two
    stored numbers: NaN is bound as NULL, which equals nothing. *)
Definition sql_eq (a b : number) : bool :=
  match a, b with
  | Fin x, Fin y => Qeq_bool x y
  | Inf s, Inf t => Bool.eqb s t
  | _, _ => false
  end.

(** [SELECT ... FROM users WHERE email = ?], [.get]: the first row. *)
Definition select_user_by_email (db : Store) (email : string) : option User :=
  find (fun u => String.eqb (u_email u) email) (users db).

(** [INSERT INTO users (name, email, password_hash)]; [None] is the
    exception of the UNIQUE constraint on [email].  Returns
    [lastInsertRowid] with the store. *)
Definition insert_user (db : Store) (name email password_hash : string)
  : option (Store * Z) :=
  if existsb (fun u => String.eqb (u_email u) email) (users db) then None
  else
    let id := next_rowid (map u_id (users db)) in
    Some ({| users := users db ++
               [{| u_id := id; u_name := name; u_email := email;
                   u_password_hash := password_hash |}];
             events := events db;
             registrations := registrations db |}, id).

(** [INSERT INTO events (host_user_id, title, description, location,
    starts_at, capacity)] *)
Definition insert_event (db : Store) (host : Z)
    (title description location starts_at : string) (capacity : number)
  : Store * Z :=
  let id := next_rowid (map e_id (events db)) in
  ({| users := users db;
      events := events db ++
        [{| e_id := id; e_host_user_id := host; e_title := title;
            e_description := description; e_location := location;
            e_starts_at := starts_at; e_capacity := capacity |}];
      registrations := registrations db |}, id).

(** [(SELECT COUNT( * ) FROM registrations r WHERE r.event_id = e.id)] *)
Definition reg_count (db : Store) (event_id : Z) : Z :=
  Z.of_nat (List.length (filter (fun r => sql_eq (r_event_id r) (of_Z event_id))
                      (registrations db))).

(** A row of [SELECT e.*, u.name AS host_name, (...) AS reg_count]. *)
Record EventRow : Type := {
  event : Event;
  host_name : string;
  row_reg_count : Z
}.

(** [FROM events e JOIN users u ON u.id = e.host_user_id], in the order of
    the scan: events outside, users inside. *)
Definition select_events (db : Store) : list EventRow :=
  flat_map
    (fun e =>
       map (fun u => {| event := e; host_name := u_name u;
                        row_reg_count := reg_count db (e_id e) |})
           (filter (fun u => u_id u =? e_host_user_id e) (users db)))
    (events db).

(** The same query with [WHERE e.id = ?], [.get]. *)
Definition select_event (db : Store) (id : number) : option EventRow :=
  find (fun row => sql_eq (of_Z (e_id (event row))) id) (select_events db).

(** [SELECT id FROM registrations WHERE event_id = ? AND user_id = ?] *)
Definition select_registration (db : Store) (id : number) (user : Z)
  : option Registration :=
  find (fun r => sql_eq (r_event_id r) id && (r_user_id r =? user))
       (registrations db).

(** [INSERT INTO registrations (event_id, user_id)]; [None] is the
    exception of a constraint: NOT NULL on [event_id] (NaN is bound as
    NULL) or UNIQUE(event_id, user_id). *)
Definition add_registration (db : Store) (id : number) (user : Z) : Store :=
  {| users := users db;
     events := events db;
     registrations := registrations db ++
       [{| r_id := next_rowid (map r_id (registrations db));
           r_event_id := id; r_user_id := user |}] |}.

Definition insert_registration (db : Store) (id : number) (user : Z)
  : option Store :=
  match id with
  | NaN => None
  | _ =>
      if existsb (fun r => sql_eq (r_event_id r) id && (r_user_id r =? user))
                 (registrations db)
      then None
      else Some (add_registration db id user)
  end.

(** *** [ORDER BY datetime(e.starts_at) ASC] *)

(** Order of the sort keys: NULL before every text, texts by their bytes
    (the BINARY collation). *)
Definition key_leb (a b : option string) : bool :=
  match a, b with
  | None, _ => true
  | Some _, None => false
  | Some x, Some y => String.leb x y
  end.

Definition key_ltb (a b : option string) : bool := negb (key_leb b a).

Section OrderBy.
Context {A : Type} (key : A -> option string) (tie : A -> A -> bool).

(** Whether [x] is put before [y]: by the keys when they differ, and as
    [tie] says when they are equal.  SQLite promises no order among rows
    of equal key; [tie] stands for whatever its sorter does. *)
Definition before (x y : A) : bool :=
  key_ltb (key x) (key y) || key_leb (key x) (key y) && tie x y.

Fixpoint insert_row (x : A) (l : list A) : list A :=
  match l with
  | [] => [x]
  | y :: l' => if before x y then x :: l else y :: insert_row x l'
  end.

Definition order_by (l : list A) : list A := fold_right insert_row [] l.

(** The order of two rows by their keys, weak and strict. *)
Definition key_le (a b : A) : Prop := key_leb (key a) (key b) = true.

Definition key_lt (a b : A) : Prop := key_ltb (key a) (key b) = true.

End OrderBy.

(* ================================================================== *)
(** ** The process environment and the mail transport *)

(** [process.env]: a variable is a string or is unset. *)
Definition Env : Type := string -> option string.

(** [process.env.PORT || 3000], as it prints in a template. *)
Definition PORT (env : Env) : string := or_default (env "PORT") "3000".

(** [process.env.BASE_URL || `http://localhost:${PORT}`] *)
Definition BASE_URL (env : Env) : string :=
  or_default (env "BASE_URL") ("http://localhost:" ++ PORT env).

(** The options handed to [nodemailer.createTransport]. *)
Record Transport : Type := {
  host : string;
  port : number;
  secure : bool;
  auth_user : option string;
  auth_pass : option string
}.

Definition makeTransport (env : Env) : option Transport :=
  if negb (field_truthy (env "SMTP_HOST")) then None
  else
    Some {| host := or_default (env "SMTP_HOST") "";
            port := Number_or (env "SMTP_PORT") 465;
            secure := String.eqb (or_default (env "SMTP_SECURE") "true") "true";
            auth_user := env "SMTP_USER";
            auth_pass := env "SMTP_PASS" |}.

(** The argument of [transporter.sendMail].  The text is the fixed
    template of the source over the four interpolated parts; the link is
    [`${BASE_URL}/events/${id}`], kept as its two parts. *)
Record Mail : Type := {
  mail_from : string;
  mail_to : string;
  mail_subject : string;
  text_event : string;
  text_when : string;
  text_where : string;
  text_link : string * number
}.

(** What the server does not implement itself: bcrypt, SQLite's
    [datetime] and sorter, and the SMTP delivery.  [bcrypt_hash] takes
    the password, the cost and the salt that the library draws;
    [datetime] yields NULL ([None]) on a text it cannot read as a time;
    [sorter_tie] says which of two events of equal sort key, given by
    their ids, the sorter puts first; [sendMail] yields the message of
    the error it throws, or [None] when the mail is accepted. *)
Class Externals : Type := {
  bcrypt_hash : string -> Z -> string -> string;
  bcrypt_compare : string -> string -> bool;
  datetime : string -> option string;
  sorter_tie : Z -> Z -> bool;
  sendMail : Transport -> Mail -> option string
}.

(* ================================================================== *)
(** ** Requests, sessions and responses *)

(** [req.body] of a url-encoded form: field name to value. *)
Definition Body : Type := string -> option value.

(** A body all of whose fields are strings, and its reading as a body. *)
Definition TextBody : Type := string -> option string.

Definition texts (body : TextBody) : Body :=
  fun name => option_map Text (body name).

Coercion texts : TextBody >-> Body.

(** A concrete body from its fields. *)
Fixpoint form (fields : list (string * string)) : TextBody :=
  fun name =>
    match fields with
    | [] => None
    | (k, v) :: rest => if String.eqb k name then Some v else form rest name
    end.

Fixpoint fields (members : list (string * value)) : Body :=
  fun name =>
    match members with
    | [] => None
    | (k, v) :: rest => if String.eqb k name then Some v else fields rest name
    end.

(** [(req.body.name || "").trim()], [None] when it throws. *)
Definition trimmed (body : Body) (name : string) : option string :=
  trim_of (or_text (body name) "").

(** [req.session.user] *)
Record SessionUser : Type := {
  su_id : Z;
  su_name : string;
  su_email : string
}.

Definition Session : Type := option SessionUser.

Inductive Location : Type :=
| Home
| LoginPage
| EventPage (id : Z).

(** [res.render(view, locals)], [res.redirect(url)],
    [res.status(404).send(text)], and the failure of a handler on an
    exception it does not catch. *)
Inductive Response : Type :=
| RenderIndex (events : list EventRow)
| RenderSignup (error : option string)
| RenderLogin (error : option string)
| RenderNewEvent (error : option string)
| RenderEvent (event : option EventRow) (alreadyRegistered : bool)
    (error ok : option string)
| Redirect (target : Location)
| NotFound (text : string)
| Uncaught.

(** What a handler leaves behind: the store, the session, the response,
    the lines of [console.warn] and the mails handed to the transport. *)
Record Outcome : Type := {
  store : Store;
  session : Session;
  response : Response;
  warnings : list string;
  mails : list Mail
}.

Definition respond (db : Store) (s : Session) (r : Response) : Outcome :=
  {| store := db; session := s; response := r; warnings := []; mails := [] |}.

(** The messages of the views. *)
Module Msg.
Definition fill_all_fields := "Fill all fields.".
Definition email_taken := "Email already registered.".
Definition invalid_credentials := "Invalid email or password.".
Definition fill_required := "Fill all required fields.".
Definition capacity_range := "Capacity must be 1–5000.".
Definition event_not_found := "Event not found".
Definition event_full := "Event is full.".
Definition already_registered := "You’re already registered ✅".
Definition registered := "Registered ✅ (email sent if SMTP is set)".
Definition email_failed := "Email failed: ".
End Msg.

(* ================================================================== *)
(** ** The handlers *)

Section Handlers.
Context {ext : Externals}.

(** [async function sendRegistrationEmail]: the mails handed to the
    transport and the error thrown, if any. *)
Definition sendRegistrationEmail (env : Env)
    (to eventTitle startsAt location : string) (link : string * number)
  : list Mail * option string :=
  match makeTransport env with
  | None => ([], None)
  | Some transporter =>
      let from := or_default (env "MAIL_FROM")
                    "EventHub <no-reply@example.com>" in
      let mail := {| mail_from := from; mail_to := to;
                     mail_subject := "Registration confirmed: " ++ eventTitle;
                     text_event := eventTitle; text_when := startsAt;
                     text_where := location; text_link := link |} in
      ([mail], sendMail transporter mail)
  end.

(** [function requireAuth] *)
Definition requireAuth (db : Store) (s : Session)
    (next : SessionUser -> Outcome) : Outcome :=
  match s with
  | None => respond db s (Redirect LoginPage)
  | Some user => next user
  end.

(** [GET /] *)
Definition listEvents (db : Store) (s : Session) : Outcome :=
  let events := order_by (fun row => datetime (e_starts_at (event row)))
                         (fun a b => sorter_tie (e_id (event a))
                                                (e_id (event b)))
                         (select_events db) in
  respond db s (RenderIndex events).

(** [POST /signup].  The two [trim] calls throw on an array or object,
    and so does [bcrypt.hash] on a password that is no string; nothing
    catches the exception. *)
Definition signUp (db : Store) (s : Session) (body : Body) (salt : string)
  : Outcome :=
  match trimmed body "name", trimmed body "email" with
  | Some name, Some trimmed_email =>
      let email := toLowerCase trimmed_email in
      let password := or_text (body "password") "" in
      if negb (truthy name) || negb (truthy email)
         || negb (truthy_value password)
      then respond db s (RenderSignup (Some Msg.fill_all_fields))
      else
        match select_user_by_email db email with
        | Some _ => respond db s (RenderSignup (Some Msg.email_taken))
        | None =>
            match password with
            | Text password =>
                let password_hash := bcrypt_hash password 12 salt in
                match insert_user db name email password_hash with
                | None => respond db s Uncaught
                | Some (db', lastInsertRowid) =>
                    respond db'
                      (Some {| su_id := lastInsertRowid; su_name := name;
                               su_email := email |})
                      (Redirect Home)
                end
            | _ => respond db s Uncaught
            end
        end
  | _, _ => respond db s Uncaught
  end.

(** [POST /login].  [trim] throws on an email that is no string, and
    [bcrypt.compare] on a password that is none. *)
Definition logIn (db : Store) (s : Session) (body : Body) : Outcome :=
  match trimmed body "email" with
  | Some trimmed_email =>
      let email := toLowerCase trimmed_email in
      let password := or_text (body "password") "" in
      match select_user_by_email db email with
      | None => respond db s (RenderLogin (Some Msg.invalid_credentials))
      | Some user =>
          match password with
          | Text password =>
              let ok := bcrypt_compare password (u_password_hash user) in
              if negb ok
              then respond db s (RenderLogin (Some Msg.invalid_credentials))
              else respond db
                     (Some {| su_id := u_id user; su_name := u_name user;
                              su_email := u_email user |})
                     (Redirect Home)
          | _ => respond db s Uncaught
          end
      end
  | None => respond db s Uncaught
  end.

(** [POST /logout] *)
Definition logOut (db : Store) (s : Session) : Outcome :=
  respond db None (Redirect Home).

(** [GET /events/new] *)
Definition newEventForm (db : Store) (s : Session) : Outcome :=
  requireAuth db s (fun _ => respond db s (RenderNewEvent None)).

(** [POST /events/new].  The three [trim] calls throw on an array or
    object, and [run] throws on a start value it cannot bind. *)
Definition createEvent (db : Store) (s : Session) (body : Body) : Outcome :=
  requireAuth db s (fun user =>
    match trimmed body "title", trimmed body "description",
          trimmed body "location" with
    | Some title, Some description, Some location =>
        let starts_at := body "starts_at" in
        let capacity := Number_or_value (body "capacity") 50 in
        if negb (truthy title) || negb (truthy description)
           || negb (truthy location) || negb (present starts_at)
        then respond db s (RenderNewEvent (Some Msg.fill_required))
        else if negb (isFinite capacity) || num_lt capacity (of_Z 1)
                || num_gt capacity (of_Z 5000)
        then respond db s (RenderNewEvent (Some Msg.capacity_range))
        else
          match bind_text starts_at with
          | Some bound =>
              let '(db', lastInsertRowid) :=
                insert_event db (su_id user) title description location
                             bound capacity in
              respond db' s (Redirect (EventPage lastInsertRowid))
          | None => respond db s Uncaught
          end
    | _, _, _ => respond db s Uncaught
    end).

(** [GET /events/:id] *)
Definition getEvent (db : Store) (s : Session) (params_id : string)
  : Outcome :=
  let id := Number params_id in
  match select_event db id with
  | None => respond db s (NotFound Msg.event_not_found)
  | Some event =>
      let alreadyRegistered :=
        match s with
        | Some user =>
            match select_registration db id (su_id user) with
            | Some _ => true
            | None => false
            end
        | None => false
        end in
      respond db s (RenderEvent (Some event) alreadyRegistered None None)
  end.

(** [POST /events/:id/register] *)
Definition registerForEvent (env : Env) (db : Store) (s : Session)
    (params_id : string) : Outcome :=
  requireAuth db s (fun user =>
    let id := Number params_id in
    match select_event db id with
    | None => respond db s (NotFound Msg.event_not_found)
    | Some ev =>
        if num_ge (of_Z (row_reg_count ev)) (e_capacity (event ev))
        then respond db s
               (RenderEvent (Some ev) false (Some Msg.event_full) None)
        else
          match insert_registration db id (su_id user) with
          | None =>
              respond db s
                (RenderEvent (Some ev) true None (Some Msg.already_registered))
          | Some db' =>
              let '(handed, thrown) :=
                sendRegistrationEmail env (su_email user)
                  (e_title (event ev)) (e_starts_at (event ev))
                  (e_location (event ev)) (BASE_URL env, id) in
              let refreshed := select_event db' id in
              {| store := db';
                 session := s;
                 response :=
                   RenderEvent refreshed true None (Some Msg.registered);
                 warnings :=
                   match thrown with
                   | Some message => [Msg.email_failed ++ message]
                   | None => []
                   end;
                 mails := handed |}
          end
    end).

End Handlers.

(* ================================================================== *)
(** ** The server as a transition system *)

Inductive Request : Type :=
| GetIndex
| PostSignup (body : Body) (salt : string)
| PostLogin (body : Body)
| PostLogout
| GetNewEvent
| PostNewEvent (body : Body)
| GetEvent (params_id : string)
| PostRegister (params_id : string).

Section Server.
Context {ext : Externals}.

(** Route dispatch. *)
Definition handle (env : Env) (db : Store) (s : Session) (req : Request)
  : Outcome :=
  match req with
  | GetIndex => listEvents db s
  | PostSignup body salt => signUp db s body salt
  | PostLogin body => logIn db s body
  | PostLogout => logOut db s
  | GetNewEvent => newEventForm db s
  | PostNewEvent body => createEvent db s body
  | GetEvent params_id => getEvent db s params_id
  | PostRegister params_id => registerForEvent env db s params_id
  end.

(** The session store hands a request the session of its cookie: none,
    or one a handler left earlier. *)
Definition session_known (issued : list SessionUser) (s : Session) : Prop :=
  match s with
  | None => True
  | Some user => In user issued
  end.

Definition issue (s : Session) (issued : list SessionUser)
  : list SessionUser :=
  match s with
  | Some user => user :: issued
  | None => issued
  end.

(** The states the server can be in: the store with the sessions issued
    so far.  It starts on the empty store, and every request comes with
    a known session. *)
Inductive reachable (env : Env) : Store -> list SessionUser -> Prop :=
| reachable_start : reachable env empty_store []
| reachable_request db issued s req :
    reachable env db issued ->
    session_known issued s ->
    reachable env (store (handle env db s req))
                  (issue (session (handle env db s req)) issued).

End Server.

(* ================================================================== *)
(** ** Properties of stores *)

(** A user is registered for the event a number names. *)
Definition registered (db : Store) (id : number) (user : Z) : Prop :=
  exists r, In r (registrations db)
            /\ sql_eq (r_event_id r) id = true /\ r_user_id r = user.


(** UNIQUE(event_id, user_id) *)
Definition same_pair (a b : Registration) : Prop :=
  sql_eq (r_event_id a) (r_event_id b) = true /\ r_user_id a = r_user_id b.

Fixpoint unique_pairs (l : list Registration) : Prop :=
  match l with
  | [] => True
  | r :: l' => (forall r', In r' l' -> ~ same_pair r r') /\ unique_pairs l'
  end.

(** Every event has its host among the users, and user ids are a key. *)
Definition hosts_present (db : Store) : Prop :=
  NoDup (map u_id (users db))
  /\ forall e, In e (events db) ->
       exists u, In u (users db) /\ u_id u = e_host_user_id e.

(** Every stored capacity is a finite number between 1 and 5000. *)
Definition capacities_in_range (db : Store) : Prop :=
  Forall (fun e => exists q, e_capacity e = Fin q /\ (1 <= q <= 5000)%Q)
         (events db).

(** A known user id. *)
Definition user_exists (db : Store) (id : Z) : Prop :=
  exists u, In u (users db) /\ u_id u = id.

(** The hosts are present and every issued session is a user's. *)
Definition consistent (db : Store) (issued : list SessionUser) : Prop :=
  hosts_present db
  /\ forall user, In user issued -> user_exists db (su_id user).

(** The row of an event with the count taken on another store. *)
Definition recount (db : Store) (row : EventRow) : EventRow :=
  {| event := event row; host_name := host_name row;
     row_reg_count := reg_count db (e_id (event row)) |}.

(** The sort key of an event in the list of [GET /]. *)
Definition start_key {ext : Externals} (e : Event) : option string :=
  datetime (e_starts_at e).

(** The order the sorter gives two events of equal key. *)
Definition start_tie {ext : Externals} (a b : Event) : bool :=
  sorter_tie (e_id a) (e_id b).

(** *** What one request does to the store *)

Definition with_user (db : Store) (row : User) : Store :=
  {| users := users db ++ [row]; events := events db;
     registrations := registrations db |}.

Definition with_event (db : Store) (e : Event) : Store :=
  {| users := users db; events := events db ++ [e];
     registrations := registrations db |}.

(** The store a request with session [s] can leave behind [db]: the same
    store, or one row more in one table. *)
Inductive change (db : Store) (s : Session) : Store -> Prop :=
| change_nothing : change db s db
| change_user row :
    u_id row = next_rowid (map u_id (users db)) ->
    (forall u, In u (users db) -> u_email u <> u_email row) ->
    change db s (with_user db row)
| change_event user e q :
    s = Some user ->
    e_id e = next_rowid (map e_id (events db)) ->
    e_host_user_id e = su_id user ->
    e_capacity e = Fin q -> (1 <= q <= 5000)%Q ->
    change db s (with_event db e)
| change_registration user id ev :
    s = Some user ->
    select_event db id = Some ev ->
    num_ge (of_Z (row_reg_count ev)) (e_capacity (event ev)) = false ->
    ~ registered db id (su_id user) ->
    change db s (add_registration db id (su_id user)).

(** An event with the id a number names. *)
Definition event_exists (db : Store) (id : number) : Prop :=
  exists e, In e (events db) /\ sql_eq (of_Z (e_id e)) id = true.

(** Every registration names an event and a user of the store. *)
Definition references_resolve (db : Store) : Prop :=
  forall r, In r (registrations db) ->
    event_exists db (r_event_id r) /\ user_exists db (r_user_id r).

(** No event holds more registrations than places: the count is below
    the capacity plus one, which for a whole capacity is at most it. *)
Definition within_capacity (db : Store) : Prop :=
  forall e, In e (events db) ->
    exists q, e_capacity e = Fin q
              /\ (inject_Z (reg_count db (e_id e)) < q + 1)%Q.

(** One list is the other with rows added at its end. *)
Definition extends {A : Type} (l l' : list A) : Prop :=
  exists added, l' = (l ++ added)%list /\ (List.length added <= 1)%nat.

(** The session [req.session.user] that names a user row. *)
Definition session_of (u : User) : SessionUser :=
  {| su_id := u_id u; su_name := u_name u; su_email := u_email u |}.

(** The routes behind [requireAuth]. *)
Definition gated (req : Request) : bool :=
  match req with
  | GetNewEvent | PostNewEvent _ | PostRegister _ => true
  | _ => false
  end.

(* ================================================================== *)
(** ** Sample data

    Concrete externals, environments and stores on which the statements
    below are exercised. *)

Module Sample.

(** Stand-ins with the shape of the real functions: the hash keeps salt
    and password apart, [datetime] reads a text already in SQLite's own
    format, the transport accepts or refuses every mail. *)
Definition externals (smtp_up : bool) : Externals := {|
  bcrypt_hash := fun password _ salt => salt ++ "$" ++ password;
  bcrypt_compare := fun password hash =>
    existsb (fun n => String.eqb (substring n (String.length hash) hash)
                                 ("$" ++ password))
            (seq 0 (String.length hash));
  datetime := fun text => if String.eqb text "" then None else Some text;
  sorter_tie := fun _ _ => true;
  sendMail := fun _ _ => if smtp_up then None else Some "connect ECONNREFUSED"
|}.

Definition env_no_smtp : Env := fun _ => None.

Definition env_smtp : Env :=
  fun name => if String.eqb name "SMTP_HOST" then Some "smtp.example.com"
              else None.

Definition alice : User :=
  {| u_id := 1; u_name := "Alice"; u_email := "alice@x.com";
     u_password_hash := "s1$pw" |}.

Definition bob : User :=
  {| u_id := 2; u_name := "Bob"; u_email := "bob@x.com";
     u_password_hash := "s2$hunter2" |}.

Definition logged_in (u : User) : SessionUser :=
  {| su_id := u_id u; su_name := u_name u; su_email := u_email u |}.

Definition as_session (u : User) : Session := Some (logged_in u).

Definition meetup (capacity : number) : Event :=
  {| e_id := 1; e_host_user_id := 1; e_title := "Meetup";
     e_description := "Monthly"; e_location := "Hall";
     e_starts_at := "2025-03-01 18:00:00"; e_capacity := capacity |}.

Definition meetup_row (capacity : number) (count : Z) : EventRow :=
  {| event := meetup capacity; host_name := "Alice"; row_reg_count := count |}.

(** Alice and Bob, Alice's event with the given capacity, nobody
    registered. *)
Definition store_with (capacity : number) : Store :=
  {| users := [alice; bob]; events := [meetup capacity];
     registrations := [] |}.

(** A second event of Alice, and the store with both events in which
    Bob is registered for the second one only. *)
Definition workshop (capacity : number) : Event :=
  {| e_id := 2; e_host_user_id := 1; e_title := "Workshop";
     e_description := "Hands on"; e_location := "Lab";
     e_starts_at := "2025-04-01 09:00:00"; e_capacity := capacity |}.

Definition store_two : Store :=
  {| users := [alice; bob];
     events := [meetup (of_Z 1); workshop (of_Z 1)];
     registrations :=
       [{| r_id := 1; r_event_id := of_Z 2; r_user_id := 2 |}] |}.

(** The same with Bob registered. *)
Definition store_bob_in (capacity : number) : Store :=
  {| users := [alice; bob]; events := [meetup capacity];
     registrations :=
       [{| r_id := 1; r_event_id := of_Z 1; r_user_id := 2 |}] |}.

Definition talk (id : Z) (starts_at : string) : Event :=
  {| e_id := id; e_host_user_id := 1; e_title := "Talk";
     e_description := "Weekly"; e_location := "Room 2";
     e_starts_at := starts_at; e_capacity := of_Z 50 |}.

Definition alice_form : TextBody :=
  form [("name", "Alice"); ("email", "Alice@X.com"); ("password", "pw")].

Definition talk_form (starts_at : string) : TextBody :=
  form [("title", "Talk"); ("description", "Weekly");
        ("location", "Room 2"); ("starts_at", starts_at);
        ("capacity", "50")].

Definition event_form (starts_at capacity : string) : TextBody :=
  form [("title", " Meetup "); ("description", "Monthly");
        ("location", "Hall"); ("starts_at", starts_at);
        ("capacity", capacity)].

Definition bob_form : TextBody :=
  form [("name", " Bob "); ("email", " Bob@X.com"); ("password", "hunter2")].

(** A run of the server: Alice and Bob sign up, Alice creates the meetup
    with one place, Bob takes it. *)
Definition after (st : Store * list SessionUser) (s : Session)
    (req : Request) : Store * list SessionUser :=
  let out := handle (ext := externals true) env_no_smtp (fst st) s req in
  (store out, issue (session out) (snd st)).

Definition run_signups : Store * list SessionUser :=
  after (after (empty_store, []) None (PostSignup alice_form "s1"))
        None (PostSignup bob_form "s2").

Definition run_meetup : Store * list SessionUser :=
  after run_signups (as_session alice)
        (PostNewEvent (event_form "2025-03-01 18:00:00" "1")).

Definition run_full : Store * list SessionUser :=
  after run_meetup (as_session bob) (PostRegister "1").

(** Externals with SQLite's [datetime] on the texts used below: those a
    datetime-local input sends, [YYYY-MM-DD HH:MM] with a blank or a [T]
    between date and time, which it completes with the seconds, and words
    such as [tomorrow], in which it reads no time and yields NULL.  Among
    events of equal key the sorter puts the newer or the older first. *)
Definition is_digit (c : ascii) : bool :=
  (48 <=? Z.of_N (N_of_ascii c)) && (Z.of_N (N_of_ascii c) <=? 57).

Definition minute_text (text : string) : option string :=
  match text with
  | String y1 (String y2 (String y3 (String y4 (String "-"
    (String m1 (String m2 (String "-" (String d1 (String d2
    (String sep (String h1 (String h2 (String ":"
    (String n1 (String n2 EmptyString))))))))))))))) =>
      if forallb is_digit [y1; y2; y3; y4; m1; m2; d1; d2; h1; h2; n1; n2]
         && (Ascii.eqb sep " " || Ascii.eqb sep "T")
      then Some (substring 0 10 text ++ " " ++ substring 11 5 text ++ ":00")
      else None
  | _ => None
  end.

Definition sqlite (newest_first : bool) : Externals := {|
  bcrypt_hash := fun password _ salt => salt ++ "$" ++ password;
  bcrypt_compare := fun password hash => String.eqb hash ("s$" ++ password);
  datetime := minute_text;
  sorter_tie := fun a b => if newest_first then b <? a else a <? b;
  sendMail := fun _ _ => None
|}.

(** Alice signs up and creates three events with the given start texts,
    in that order. *)
Definition after_sqlite (newest_first : bool)
    (st : Store * list SessionUser) (s : Session) (req : Request)
  : Store * list SessionUser :=
  let out := handle (ext := sqlite newest_first) env_no_smtp (fst st) s req in
  (store out, issue (session out) (snd st)).

Definition run_three (newest_first : bool) (t1 t2 t3 : string)
  : Store * list SessionUser :=
  after_sqlite newest_first
    (after_sqlite newest_first
       (after_sqlite newest_first
          (after_sqlite newest_first (empty_store, []) None
             (PostSignup alice_form "s"))
          (as_session alice) (PostNewEvent (talk_form t1)))
       (as_session alice) (PostNewEvent (talk_form t2)))
    (as_session alice) (PostNewEvent (talk_form t3)).

Definition env_of (vars : list (string * string)) : Env := form vars.

End Sample.

(* ================================================================== *)
(** * Theorems *)

(** ** Strings *)

Lemma truthy_false (s : string) : truthy s = false <-> s = "".
Proof. destruct s; simpl; split; congruence. Qed.

Lemma truthy_true (s : string) : truthy s = true <-> s <> "".
Proof. destruct s; simpl; split; congruence. Qed.



Lemma field_truthy_or_default (v : option string) :
  field_truthy v = truthy (or_default v "").
Proof. destruct v as [[|c s]|]; reflexivity. Qed.

(** ** Form values *)

Lemma trimmed_texts (body : TextBody) (name : string) :
  trimmed body name = Some (trim (or_default (body name) "")).
Proof.
  unfold trimmed, texts, or_text, or_default.
  destruct (body name) as [[|c r]|]; reflexivity.
Qed.

Lemma or_text_texts (body : TextBody) (name d : string) :
  or_text (texts body name) d = Text (or_default (body name) d).
Proof.
  unfold texts, or_text, or_default.
  destruct (body name) as [[|c r]|]; reflexivity.
Qed.

Lemma present_texts (body : TextBody) (name : string) :
  present (texts body name) = field_truthy (body name).
Proof. unfold texts. destruct (body name) as [[|c r]|]; reflexivity. Qed.

Lemma Number_or_value_texts (body : TextBody) (name : string) (d : Z) :
  Number_or_value (texts body name) d = Number_or (body name) d.
Proof. unfold texts. destruct (body name) as [[|c r]|]; reflexivity. Qed.

Lemma bind_text_texts (body : TextBody) (name : string) :
  bind_text (texts body name) = body name.
Proof. unfold texts. destruct (body name) as [t|]; reflexivity. Qed.

(** ** Numbers *)

Lemma num_ge_Fin (n : Z) (q : Q) :
  num_ge (of_Z n) (Fin q) = true <-> (q <= inject_Z n)%Q.
Proof.
  unfold num_ge, of_Z, num_lt, Qltb.
  rewrite negb_involutive. apply Qle_bool_iff.
Qed.

Lemma num_ge_of_Z (a b : Z) : num_ge (of_Z a) (of_Z b) = (b <=? a).
Proof.
  destruct (b <=? a) eqn:E.
  - apply num_ge_Fin. rewrite <- Zle_Qle. now apply Z.leb_le.
  - destruct (num_ge (of_Z a) (of_Z b)) eqn:G; [|reflexivity].
    apply num_ge_Fin in G. rewrite <- Zle_Qle in G.
    apply Z.leb_le in G. congruence.
Qed.

Lemma sql_eq_sym (a b : number) : sql_eq a b = sql_eq b a.
Proof.
  destruct a as [|s|x], b as [|t|y]; simpl; try reflexivity.
  - now destruct s, t.
  - unfold Qeq_bool. apply Z.eqb_sym.
Qed.

Lemma sql_eq_defined (a b : number) : sql_eq a b = true -> sql_eq b b = true.
Proof.
  destruct a as [|s|x], b as [|t|y]; simpl; try discriminate; intros _.
  - now destruct t.
  - apply Qeq_bool_iff. reflexivity.
Qed.

Lemma sql_eq_not_NaN (a b : number) : sql_eq a b = true -> b <> NaN.
Proof. destruct a, b; simpl; congruence. Qed.

(** ** The statements of the store *)

Lemma next_rowid_above (ids : list Z) :
  Forall (fun i => i < next_rowid ids) ids.
Proof.
  unfold next_rowid. induction ids as [|i ids IH]; constructor;
    cbn [fold_right].
  - lia.
  - eapply Forall_impl; [|exact IH]. cbn beta. intros; lia.
Qed.

Lemma find_map_stable {A : Type} (p : A -> bool) (f : A -> A) (l : list A) :
  (forall x, p (f x) = p x) ->
  find p (map f l) = option_map f (find p l).
Proof.
  intros Hp. induction l as [|x l IH]; simpl; [reflexivity|].
  rewrite Hp. destruct (p x); [reflexivity | exact IH].
Qed.

Lemma select_events_recount (db db' : Store) :
  users db' = users db -> events db' = events db ->
  select_events db' = map (recount db') (select_events db).
Proof.
  intros Hu He. unfold select_events. rewrite Hu, He. clear He.
  induction (events db) as [|e l IH]; simpl; [reflexivity|].
  rewrite map_app, IH, map_map. reflexivity.
Qed.

Lemma select_events_count (db : Store) (row : EventRow) :
  In row (select_events db) ->
  row_reg_count row = reg_count db (e_id (event row))
  /\ In (event row) (events db).
Proof.
  unfold select_events. rewrite in_flat_map.
  intros (e & He & Hrow). apply in_map_iff in Hrow.
  destruct Hrow as (u & <- & _). simpl. now split.
Qed.

Lemma select_event_Some (db : Store) (id : number) (row : EventRow) :
  select_event db id = Some row ->
  sql_eq (of_Z (e_id (event row))) id = true
  /\ row_reg_count row = reg_count db (e_id (event row))
  /\ In (event row) (events db).
Proof.
  unfold select_event. intros H. apply find_some in H.
  destruct H as [Hin Heq]. split; [exact Heq|].
  now apply select_events_count.
Qed.

Lemma select_event_recount (db db' : Store) (id : number) :
  users db' = users db -> events db' = events db ->
  select_event db' id = option_map (recount db') (select_event db id).
Proof.
  intros Hu He. unfold select_event.
  rewrite (select_events_recount db db' Hu He).
  now apply find_map_stable.
Qed.

Lemma insert_registration_fresh (db : Store) (id : number) (user : Z) :
  id <> NaN -> ~ registered db id user ->
  insert_registration db id user = Some (add_registration db id user).
Proof.
  intros Hid Hnot. unfold insert_registration.
  destruct (existsb _ (registrations db)) eqn:E.
  - exfalso. apply Hnot. apply existsb_exists in E.
    destruct E as (r & Hin & Hr). apply andb_true_iff in Hr.
    exists r. rewrite Z.eqb_eq in Hr. tauto.
  - destruct id; congruence.
Qed.

Lemma insert_registration_taken (db : Store) (id : number) (user : Z) :
  registered db id user -> insert_registration db id user = None.
Proof.
  intros (r & Hin & Hev & Hu). unfold insert_registration.
  replace (existsb _ (registrations db)) with true.
  - now destruct id.
  - symmetry. apply existsb_exists. exists r. split; [exact Hin|].
    rewrite Hev. now apply Z.eqb_eq.
Qed.

Lemma reg_count_insert (db : Store) (id : number) (user eid : Z) :
  sql_eq (of_Z eid) id = true ->
  reg_count (add_registration db id user) eid = reg_count db eid + 1.
Proof.
  intros H. unfold reg_count. simpl. rewrite filter_app. simpl.
  rewrite sql_eq_sym, H. rewrite length_app. simpl. lia.
Qed.

Lemma unique_pairs_snoc (l : list Registration) (new : Registration) :
  unique_pairs l -> (forall r, In r l -> ~ same_pair r new) ->
  unique_pairs (l ++ [new]).
Proof.
  induction l as [|r l IH]; cbn [app unique_pairs]; intros Huniq Hnew.
  - split; [intros ? []|exact I].
  - destruct Huniq as [Hr Hl]. split.
    + intros r' Hin. apply in_app_or in Hin. destruct Hin as [Hin|Hin].
      * now apply Hr.
      * destruct Hin as [<-|[]]. apply Hnew. now left.
    + apply IH; [exact Hl|]. intros x Hx. apply Hnew. now right.
Qed.

(* ================================================================== *)
(** ** Registration *)

Section Registration.
Context {ext : Externals}.
Variables (env : Env) (db : Store) (user : SessionUser) (params_id : string).
Variable ev : EventRow.
Hypothesis loaded : select_event db (Number params_id) = Some ev.

(** The store after the INSERT of the handler. *)
Let inserted : Store := add_registration db (Number params_id) (su_id user).

Lemma register_full :
  num_ge (of_Z (row_reg_count ev)) (e_capacity (event ev)) = true ->
  registerForEvent env db (Some user) params_id =
    respond db (Some user)
      (RenderEvent (Some ev) false (Some Msg.event_full) None).
Proof.
  intros Hfull. unfold registerForEvent, requireAuth.
  now rewrite loaded, Hfull.
Qed.

Lemma register_duplicate :
  num_ge (of_Z (row_reg_count ev)) (e_capacity (event ev)) = false ->
  registered db (Number params_id) (su_id user) ->
  registerForEvent env db (Some user) params_id =
    respond db (Some user)
      (RenderEvent (Some ev) true None (Some Msg.already_registered)).
Proof.
  intros Hroom Hreg. unfold registerForEvent, requireAuth.
  now rewrite loaded, Hroom, (insert_registration_taken _ _ _ Hreg).
Qed.

Lemma refreshed_row :
  select_event inserted (Number params_id) = Some (recount inserted ev)
  /\ row_reg_count (recount inserted ev) = row_reg_count ev + 1.
Proof.
  destruct (select_event_Some _ _ _ loaded) as (Hid & Hcount & _).
  split.
  - rewrite (select_event_recount db inserted) by reflexivity.
    now rewrite loaded.
  - unfold recount, inserted. cbn [row_reg_count].
    rewrite reg_count_insert by exact Hid. now rewrite Hcount.
Qed.

Lemma register_admitted :
  num_ge (of_Z (row_reg_count ev)) (e_capacity (event ev)) = false ->
  ~ registered db (Number params_id) (su_id user) ->
  let out := registerForEvent env db (Some user) params_id in
  store out = inserted
  /\ session out = Some user
  /\ response out =
       RenderEvent (Some (recount inserted ev)) true None (Some Msg.registered)
  /\ (mails out, warnings out) =
       let '(handed, thrown) :=
         sendRegistrationEmail env (su_email user) (e_title (event ev))
           (e_starts_at (event ev)) (e_location (event ev))
           (BASE_URL env, Number params_id) in
       (handed, match thrown with
                | Some message => [Msg.email_failed ++ message]
                | None => []
                end).
Proof.
  intros Hroom Hnew.
  destruct (select_event_Some _ _ _ loaded) as (Hid & _).
  pose proof (sql_eq_not_NaN _ _ Hid) as Hnan.
  unfold registerForEvent, requireAuth. cbv zeta.
  rewrite loaded, Hroom, (insert_registration_fresh _ _ _ Hnan Hnew).
  fold inserted.
  destruct (sendRegistrationEmail _ _ _ _ _ _) as [handed thrown].
  cbn [store session response mails warnings].
  now rewrite (proj1 refreshed_row).
Qed.

Lemma registered_after_insert :
  registered inserted (Number params_id) (su_id user).
Proof.
  destruct (select_event_Some _ _ _ loaded) as (Hid & _).
  eexists. split; [|split].
  - unfold inserted. cbn [registrations]. apply in_or_app. right. now left.
  - cbn [r_event_id]. exact (sql_eq_defined _ _ Hid).
  - reflexivity.
Qed.

End Registration.

(** C1.  An event that is loaded with a finite capacity [q] and a user who
    is not registered for it.  The registration count of the event is the
    number of rows of [registrations] that name it, whatever rows there
    are for other events.  When that count is at least the capacity, the
    handler answers "Event is full." and leaves the store as it was: no
    Registration row is inserted.  When the count is the capacity minus
    one, the handler answers with the success page, the one new row is
    appended, and the count of the event, in the table and on the page,
    is then the capacity. *)
Theorem C1_capacity_boundary {ext : Externals} (env : Env) (db : Store)
    (user : SessionUser) (params_id : string) (ev : EventRow) (q : Q) :
  select_event db (Number params_id) = Some ev ->
  ~ registered db (Number params_id) (su_id user) ->
  e_capacity (event ev) = Fin q ->
  let naming := fun r => sql_eq (r_event_id r) (of_Z (e_id (event ev))) in
  let count := fun d : Store =>
    Z.of_nat (List.length (filter naming (registrations d))) in
  let out := registerForEvent env db (Some user) params_id in
  In (event ev) (events db)
  /\ row_reg_count ev = count db
  /\ ((q <= inject_Z (count db))%Q ->
      response out = RenderEvent (Some ev) false (Some Msg.event_full) None
      /\ store out = db)
  /\ ((q == inject_Z (count db + 1))%Q ->
     exists ev',
       response out = RenderEvent (Some ev') true None (Some Msg.registered)
       /\ select_event (store out) (Number params_id) = Some ev'
       /\ event ev' = event ev
       /\ row_reg_count ev' = count (store out)
       /\ count (store out) = count db + 1
       /\ (inject_Z (count (store out)) == q)%Q
       /\ registrations (store out) =
            (registrations db ++
               [{| r_id := next_rowid (map r_id (registrations db));
                   r_event_id := Number params_id;
                   r_user_id := su_id user |}])%list).
Proof.
  intros Hload Hnew Hcap naming count out.
  destruct (select_event_Some _ _ _ Hload) as (Hid & Hcount & Hin).
  change (count db) with (reg_count db (e_id (event ev))).
  rewrite <- Hcount. subst out.
  split; [exact Hin|]. split; [reflexivity|]. split.
  - intros Hfull.
    rewrite (register_full env db user params_id ev Hload); [now split|].
    rewrite Hcap. now apply num_ge_Fin.
  - intros Hlast.
    assert (Hroom : num_ge (of_Z (row_reg_count ev)) (e_capacity (event ev))
                    = false).
    { rewrite Hcap.
      destruct (num_ge (of_Z (row_reg_count ev)) (Fin q)) eqn:G;
        [|reflexivity].
      apply num_ge_Fin in G. rewrite Hlast in G.
      rewrite <- Zle_Qle in G. lia. }
    destruct (register_admitted env db user params_id ev Hload Hroom Hnew)
      as (Hstore & _ & Hresp & _).
    destruct (refreshed_row db user params_id ev Hload) as (Hsel & Hrow).
    eexists. split; [exact Hresp|]. rewrite Hstore.
    change (count (add_registration db (Number params_id) (su_id user)))
      with (reg_count (add_registration db (Number params_id) (su_id user))
              (e_id (event ev))).
    rewrite (reg_count_insert db _ (su_id user) _ Hid), <- Hcount.
    repeat split.
    + exact Hsel.
    + exact Hrow.
    + rewrite Hlast. reflexivity.
Qed.

Lemma C1_capacity_boundary_witness :
  (response (registerForEvent (ext := Sample.externals true)
               Sample.env_no_smtp Sample.store_two
               (Sample.as_session Sample.alice) "2")
   = RenderEvent
       (Some {| event := Sample.workshop (of_Z 1); host_name := "Alice";
                row_reg_count := 1 |})
       false (Some Msg.event_full) None)
  /\ (exists ev',
        response (registerForEvent (ext := Sample.externals true)
                    Sample.env_no_smtp Sample.store_two
                    (Sample.as_session Sample.bob) "1")
        = RenderEvent (Some ev') true None (Some Msg.registered)
        /\ event ev' = Sample.meetup (of_Z 1)
        /\ row_reg_count ev' = 1).
Proof.
  split.
  - apply (C1_capacity_boundary (ext := Sample.externals true)
             Sample.env_no_smtp Sample.store_two
             (Sample.logged_in Sample.alice) "2"
             {| event := Sample.workshop (of_Z 1); host_name := "Alice";
                row_reg_count := 1 |} 1).
    + reflexivity.
    + intros (r & [<- | []] & _ & Huser). discriminate Huser.
    + reflexivity.
    + vm_compute. discriminate.
  - destruct (C1_capacity_boundary (ext := Sample.externals true)
                Sample.env_no_smtp Sample.store_two
                (Sample.logged_in Sample.bob) "1"
                (Sample.meetup_row (of_Z 1) 0) 1)
      as (_ & _ & _ & Hlast).
    + reflexivity.
    + intros (r & [<- | []] & Hevent & _). discriminate Hevent.
    + reflexivity.
    + destruct Hlast as (ev' & Hresp & _ & Hev & Hrow & Hcount & _);
        [reflexivity|].
      exists ev'. split; [exact Hresp|]. split; [exact Hev|].
      rewrite Hrow. exact Hcount.
Defined.

(** C9.  A user who is already registered for an event whose count has
    reached its capacity is answered "Event is full.", with the
    already-registered flag cleared: the comparison with the capacity is
    made before the INSERT that detects the duplicate. *)
Theorem C9_capacity_before_duplicate {ext : Externals} (env : Env)
    (db : Store) (user : SessionUser) (params_id : string) (ev : EventRow)
    (q : Q) :
  select_event db (Number params_id) = Some ev ->
  registered db (Number params_id) (su_id user) ->
  e_capacity (event ev) = Fin q ->
  (q <= inject_Z (row_reg_count ev))%Q ->
  let out := registerForEvent env db (Some user) params_id in
  response out = RenderEvent (Some ev) false (Some Msg.event_full) None
  /\ response out <>
       RenderEvent (Some ev) true None (Some Msg.already_registered)
  /\ store out = db.
Proof.
  intros Hload _ Hcap Hfull out. subst out.
  rewrite (register_full env db user params_id ev Hload).
  - repeat split. discriminate.
  - rewrite Hcap. now apply num_ge_Fin.
Qed.

Lemma C9_capacity_before_duplicate_witness :
  response (registerForEvent (ext := Sample.externals true)
              Sample.env_no_smtp (Sample.store_bob_in (of_Z 1))
              (Sample.as_session Sample.bob) "1")
  = RenderEvent (Some (Sample.meetup_row (of_Z 1) 1)) false
      (Some Msg.event_full) None.
Proof.
  apply (C9_capacity_before_duplicate (ext := Sample.externals true)
           Sample.env_no_smtp (Sample.store_bob_in (of_Z 1))
           (Sample.logged_in Sample.bob) "1"
           (Sample.meetup_row (of_Z 1) 1) 1).
  - reflexivity.
  - eexists. split; [left; reflexivity|]. split; reflexivity.
  - reflexivity.
  - vm_compute. discriminate.
Defined.

(** C2, as the specification words it, fails on an event with one place
    left: Bob takes the only place of the event, and his second request is
    answered "Event is full.", not "already registered". *)
Lemma C2_second_attempt_on_last_place :
  let db := Sample.store_with (of_Z 1) in
  let first := registerForEvent (ext := Sample.externals true)
                 Sample.env_no_smtp db (Sample.as_session Sample.bob) "1" in
  let second := registerForEvent (ext := Sample.externals true)
                  Sample.env_no_smtp (store first)
                  (Sample.as_session Sample.bob) "1" in
  select_event db (Number "1") = Some (Sample.meetup_row (of_Z 1) 0)
  /\ num_ge (of_Z 0) (of_Z 1) = false
  /\ response first =
       RenderEvent (Some (Sample.meetup_row (of_Z 1) 1)) true None
         (Some Msg.registered)
  /\ response second =
       RenderEvent (Some (Sample.meetup_row (of_Z 1) 1)) false
         (Some Msg.event_full) None
  /\ response second <>
       RenderEvent (Some (Sample.meetup_row (of_Z 1) 1)) true None
         (Some Msg.already_registered).
Proof. cbv zeta. repeat split. discriminate. Qed.

(** C2, amended.  An event with a place left and a user not registered
    for it.  The first request succeeds and appends the one row.  The
    second request of the same user leaves the store, hence the
    Registration table and the count, as the first left it; it is
    answered "already registered" when a place is still left after the
    first request, and "Event is full." when the first request took the
    last place.  The pairs (event, user) of the table stay distinct. *)
Theorem C2_register_twice {ext : Externals} (env : Env) (db : Store)
    (user : SessionUser) (params_id : string) (ev : EventRow) :
  select_event db (Number params_id) = Some ev ->
  num_ge (of_Z (row_reg_count ev)) (e_capacity (event ev)) = false ->
  ~ registered db (Number params_id) (su_id user) ->
  let first := registerForEvent env db (Some user) params_id in
  let second := registerForEvent env (store first) (Some user) params_id in
  exists ev',
    response first = RenderEvent (Some ev') true None (Some Msg.registered)
    /\ event ev' = event ev
    /\ row_reg_count ev' = row_reg_count ev + 1
    /\ store first = add_registration db (Number params_id) (su_id user)
    /\ store second = store first
    /\ response second =
         (if num_ge (of_Z (row_reg_count ev + 1)) (e_capacity (event ev))
          then RenderEvent (Some ev') false (Some Msg.event_full) None
          else RenderEvent (Some ev') true None
                 (Some Msg.already_registered))
    /\ (unique_pairs (registrations db) ->
        unique_pairs (registrations (store second))).
Proof.
  intros Hload Hroom Hnew first second.
  destruct (register_admitted env db user params_id ev Hload Hroom Hnew)
    as (Hstore & _ & Hresp & _).
  destruct (refreshed_row db user params_id ev Hload) as (Hsel & Hcount).
  fold first in Hstore, Hresp.
  assert (Hreg : registered (store first) (Number params_id) (su_id user)).
  { rewrite Hstore.
    exact (registered_after_insert db user params_id ev Hload). }
  rewrite <- Hstore in Hsel.
  assert (Hsecond :
    second = respond (store first) (Some user)
      (if num_ge (of_Z (row_reg_count ev + 1)) (e_capacity (event ev))
       then RenderEvent (Some (recount (store first) ev)) false
              (Some Msg.event_full) None
       else RenderEvent (Some (recount (store first) ev)) true None
              (Some Msg.already_registered))).
  { subst second.
    destruct (num_ge (of_Z (row_reg_count ev + 1)) (e_capacity (event ev)))
      eqn:G.
    - apply (register_full env _ user params_id _ Hsel).
      cbn [recount event row_reg_count]. rewrite Hstore.
      change (reg_count _ _) with
        (row_reg_count
           (recount (add_registration db (Number params_id) (su_id user)) ev)).
      now rewrite Hcount.
    - apply (register_duplicate env _ user params_id _ Hsel); [|exact Hreg].
      cbn [recount event row_reg_count]. rewrite Hstore.
      change (reg_count _ _) with
        (row_reg_count
           (recount (add_registration db (Number params_id) (su_id user)) ev)).
      now rewrite Hcount. }
  exists (recount (store first) ev). rewrite Hsecond.
  cbn [store response]. rewrite Hstore at 1 2 3.
  repeat split; try assumption.
  intros Huniq. cbn [respond store]. rewrite Hstore.
  cbn [add_registration registrations].
  apply unique_pairs_snoc; [exact Huniq|].
  intros r Hin [He Hu]. cbn in He, Hu.
  apply Hnew. exists r. now repeat split.
Qed.

Lemma C2_register_twice_witness :
  let first := registerForEvent (ext := Sample.externals true)
                 Sample.env_no_smtp (Sample.store_with (of_Z 2))
                 (Sample.as_session Sample.bob) "1" in
  let second := registerForEvent (ext := Sample.externals true)
                  Sample.env_no_smtp (store first)
                  (Sample.as_session Sample.bob) "1" in
  exists ev',
    response first = RenderEvent (Some ev') true None (Some Msg.registered)
    /\ store second = store first
    /\ response second =
         RenderEvent (Some ev') true None (Some Msg.already_registered).
Proof.
  destruct (C2_register_twice (ext := Sample.externals true)
              Sample.env_no_smtp (Sample.store_with (of_Z 2))
              (Sample.logged_in Sample.bob) "1"
              (Sample.meetup_row (of_Z 2) 0))
    as (ev' & Hfirst & _ & _ & _ & Hstore & Hsecond & _).
  - reflexivity.
  - reflexivity.
  - intros (r & [] & _).
  - exists ev'. exact (conj Hfirst (conj Hstore Hsecond)).
Defined.

(** C8.  Without a configured transport (SMTP_HOST unset or empty)
    [sendRegistrationEmail] hands nothing to a transport and throws
    nothing.  When the send throws after the INSERT went through, the
    handler still answers with the success page, the inserted row is in
    the store it leaves, and the error only reaches [console.warn]. *)
Theorem C8_mail_failure_is_discarded {ext : Externals} :
  (forall env to eventTitle startsAt location link,
      field_truthy (env "SMTP_HOST") = false ->
      sendRegistrationEmail env to eventTitle startsAt location link
      = ([], None))
  /\ (forall env db user params_id ev handed message,
        select_event db (Number params_id) = Some ev ->
        num_ge (of_Z (row_reg_count ev)) (e_capacity (event ev)) = false ->
        ~ registered db (Number params_id) (su_id user) ->
        sendRegistrationEmail env (su_email user) (e_title (event ev))
          (e_starts_at (event ev)) (e_location (event ev))
          (BASE_URL env, Number params_id) = (handed, Some message) ->
        let out := registerForEvent env db (Some user) params_id in
        response out =
          RenderEvent (select_event (store out) (Number params_id)) true None
            (Some Msg.registered)
        /\ store out = add_registration db (Number params_id) (su_id user)
        /\ registered (store out) (Number params_id) (su_id user)
        /\ warnings out = [Msg.email_failed ++ message]).
Proof.
  split.
  - intros env to eventTitle startsAt location link Hoff.
    unfold sendRegistrationEmail, makeTransport. now rewrite Hoff.
  - intros env db user params_id ev handed message Hload Hroom Hnew Hsend out.
    destruct (register_admitted env db user params_id ev Hload Hroom Hnew)
      as (Hstore & _ & Hresp & Hmail).
    fold out in Hstore, Hresp, Hmail. rewrite Hsend in Hmail.
    rewrite Hstore, Hresp.
    rewrite (proj1 (refreshed_row db user params_id ev Hload)).
    repeat split.
    + exact (registered_after_insert db user params_id ev Hload).
    + congruence.
Qed.

Lemma C8_mail_failure_is_discarded_witness :
  sendRegistrationEmail (ext := Sample.externals false) Sample.env_no_smtp
    "bob@x.com" "Meetup" "2025-03-01 18:00:00" "Hall"
    ("http://localhost:3000", of_Z 1) = ([], None)
  /\ let out := registerForEvent (ext := Sample.externals false)
                  Sample.env_smtp (Sample.store_with (of_Z 1))
                  (Sample.as_session Sample.bob) "1" in
     response out =
       RenderEvent (select_event (store out) (Number "1")) true None
         (Some Msg.registered)
     /\ registered (store out) (Number "1") 2
     /\ warnings out = ["Email failed: connect ECONNREFUSED"].
Proof.
  split.
  - apply (proj1 (C8_mail_failure_is_discarded
                    (ext := Sample.externals false))).
    reflexivity.
  - destruct (proj2 (C8_mail_failure_is_discarded
                       (ext := Sample.externals false))
                Sample.env_smtp (Sample.store_with (of_Z 1))
                (Sample.logged_in Sample.bob) "1"
                (Sample.meetup_row (of_Z 1) 0)
                [{| mail_from := "EventHub <no-reply@example.com>";
                    mail_to := "bob@x.com";
                    mail_subject := "Registration confirmed: Meetup";
                    text_event := "Meetup";
                    text_when := "2025-03-01 18:00:00";
                    text_where := "Hall";
                    text_link := ("http://localhost:3000", Number "1") |}]
                "connect ECONNREFUSED")
      as (Hresp & _ & Hreg & Hwarn).
    + reflexivity.
    + reflexivity.
    + intros (r & [] & _).
    + reflexivity.
    + exact (conj Hresp (conj Hreg Hwarn)).
Defined.

(* ================================================================== *)
(** ** Accounts *)

Lemma select_user_by_email_None (db : Store) (email : string) :
  select_user_by_email db email = None <->
  forall u, In u (users db) -> u_email u <> email.
Proof.
  unfold select_user_by_email. split.
  - intros H u Hin. apply (find_none _ _ H) in Hin.
    now apply String.eqb_neq.
  - intros H. destruct (find _ (users db)) as [u|] eqn:F; [|reflexivity].
    apply find_some in F. destruct F as [Hin Heq].
    apply String.eqb_eq in Heq. now apply H in Hin.
Qed.

Lemma select_user_by_email_Some (db : Store) (email : string) (u : User) :
  select_user_by_email db email = Some u ->
  In u (users db) /\ u_email u = email.
Proof.
  unfold select_user_by_email. intros F. apply find_some in F.
  now rewrite String.eqb_eq in F.
Qed.


Lemma logIn_text {ext : Externals} (db : Store) (s : Session) (body : Body)
    (raw_email password : string) :
  or_text (body "email") "" = Text raw_email ->
  or_text (body "password") "" = Text password ->
  logIn db s body =
    match select_user_by_email db (toLowerCase (trim raw_email)) with
    | None => respond db s (RenderLogin (Some Msg.invalid_credentials))
    | Some user =>
        if negb (bcrypt_compare password (u_password_hash user))
        then respond db s (RenderLogin (Some Msg.invalid_credentials))
        else respond db
               (Some {| su_id := u_id user; su_name := u_name user;
                        su_email := u_email user |})
               (Redirect Home)
    end.
Proof.
  intros He Hp. unfold logIn, trimmed. rewrite He, Hp. reflexivity.
Qed.





(** [POST /signup] on a form all of whose fields are strings. *)
Lemma signUp_texts {ext : Externals} (db : Store) (s : Session)
    (body : TextBody) (salt : string) :
  signUp db s body salt =
    let name := trim (or_default (body "name") "") in
    let email := toLowerCase (trim (or_default (body "email") "")) in
    let password := or_default (body "password") "" in
    if negb (truthy name) || negb (truthy email) || negb (truthy password)
    then respond db s (RenderSignup (Some Msg.fill_all_fields))
    else
      match select_user_by_email db email with
      | Some _ => respond db s (RenderSignup (Some Msg.email_taken))
      | None =>
          match insert_user db name email (bcrypt_hash password 12 salt) with
          | None => respond db s Uncaught
          | Some (db', lastInsertRowid) =>
              respond db'
                (Some {| su_id := lastInsertRowid; su_name := name;
                         su_email := email |})
                (Redirect Home)
          end
      end.
Proof.
  unfold signUp. rewrite !trimmed_texts, or_text_texts. reflexivity.
Qed.

Section SignUp.
Context {ext : Externals}.
Variables (db : Store) (s : Session) (body : TextBody) (salt : string).

Let name := trim (or_default (body "name") "").
Let email := toLowerCase (trim (or_default (body "email") "")).
Let password := or_default (body "password") "".

Lemma signUp_incomplete :
  name = "" \/ email = "" \/ password = "" ->
  signUp db s body salt =
    respond db s (RenderSignup (Some Msg.fill_all_fields)).
Proof.
  intros H. rewrite signUp_texts. cbv zeta. fold name email password.
  replace (negb (truthy name) || negb (truthy email) || negb (truthy password))
    with true; [reflexivity|].
  symmetry. rewrite !orb_true_iff, !negb_true_iff, !truthy_false. tauto.
Qed.

Lemma signUp_complete :
  name <> "" -> email <> "" -> password <> "" ->
  signUp db s body salt =
    match select_user_by_email db email with
    | Some _ => respond db s (RenderSignup (Some Msg.email_taken))
    | None =>
        respond
          {| users := users db ++
               [{| u_id := next_rowid (map u_id (users db)); u_name := name;
                   u_email := email;
                   u_password_hash := bcrypt_hash password 12 salt |}];
             events := events db; registrations := registrations db |}
          (Some {| su_id := next_rowid (map u_id (users db)); su_name := name;
                   su_email := email |})
          (Redirect Home)
    end.
Proof.
  intros Hn He Hp. rewrite signUp_texts. cbv zeta.
  fold name email password.
  apply truthy_true in Hn, He, Hp. rewrite Hn, He, Hp. cbn [negb orb].
  destruct (select_user_by_email db email) as [u|] eqn:F; [reflexivity|].
  unfold insert_user.
  replace (existsb _ (users db)) with false; [reflexivity|].
  symmetry. apply not_true_is_false. intros Hex.
  apply existsb_exists in Hex. destruct Hex as (u & Hin & Heq).
  apply String.eqb_eq in Heq.
  exact (proj1 (select_user_by_email_None db email) F u Hin Heq).
Qed.



End SignUp.

Lemma or_default_Some (x : string) : or_default (Some x) "" = x.
Proof. now destruct x. Qed.

(** A form whose name, email and password are strings or absent is
    handled as the form of the three strings. *)
Lemma signUp_as_text {ext : Externals} (db : Store) (s : Session)
    (body : Body) (salt raw_name raw_email password : string) :
  or_text (body "name") "" = Text raw_name ->
  or_text (body "email") "" = Text raw_email ->
  or_text (body "password") "" = Text password ->
  signUp db s body salt =
    signUp db s (form [("name", raw_name); ("email", raw_email);
                       ("password", password)]) salt.
Proof.
  intros Hn He Hp. rewrite signUp_texts. cbn [form String.eqb Ascii.eqb
    Bool.eqb]. rewrite !or_default_Some.
  unfold signUp, trimmed. rewrite Hn, He, Hp. reflexivity.
Qed.

(** Every other form leaves store and session as they were. *)
Lemma signUp_rich {ext : Externals} (db : Store) (s : Session) (body : Body)
    (salt : string) :
  (exists text : TextBody, signUp db s body salt = signUp db s text salt)
  \/ (exists r, signUp db s body salt = respond db s r).
Proof.
  destruct (or_text (body "name") "") as [raw_name| |] eqn:Hn;
    [|right; eexists; unfold signUp, trimmed; rewrite Hn; reflexivity ..].
  destruct (or_text (body "email") "") as [raw_email| |] eqn:He;
    [|right; eexists; unfold signUp, trimmed; rewrite Hn, He;
      reflexivity ..].
  destruct (or_text (body "password") "") as [password| |] eqn:Hp.
  - left. eexists. exact (signUp_as_text db s body salt _ _ _ Hn He Hp).
  - right. unfold signUp, trimmed. rewrite Hn, He, Hp. cbn [trim_of].
    cbv zeta. destruct (_ || _ || _); [eexists; reflexivity|].
    destruct (select_user_by_email _ _); eexists; reflexivity.
  - right. unfold signUp, trimmed. rewrite Hn, He, Hp. cbn [trim_of].
    cbv zeta. destruct (_ || _ || _); [eexists; reflexivity|].
    destruct (select_user_by_email _ _); eexists; reflexivity.
Qed.


(** [POST /login] leaves the store as it was. *)
Lemma logIn_store {ext : Externals} (db : Store) (s : Session) (body : Body) :
  store (logIn db s body) = db.
Proof.
  unfold logIn. destruct (trimmed body "email"); [|reflexivity].
  cbv zeta. destruct (select_user_by_email _ _); [|reflexivity].
  destruct (or_text (body "password") ""); try reflexivity.
  now destruct (negb _).
Qed.

(** [POST /login] either throws, or compares one password with the
    hash of the row that carries one email. *)
Lemma logIn_rich {ext : Externals} (db : Store) (s : Session) (body : Body) :
  (exists raw_email password,
      or_text (body "email") "" = Text raw_email
      /\ or_text (body "password") "" = Text password)
  \/ (exists r, logIn db s body = respond db s r).
Proof.
  destruct (or_text (body "email") "") as [raw_email| |] eqn:He;
    [|right; eexists; unfold logIn, trimmed; rewrite He; reflexivity ..].
  destruct (or_text (body "password") "") as [password| |] eqn:Hp;
    [left; now exists raw_email, password| |];
    right; unfold logIn, trimmed; rewrite He, Hp; cbn [trim_of]; cbv zeta;
    destruct (select_user_by_email _ _); eexists; reflexivity.
Qed.

(** Opens [createEvent] on the fields it reads; [side] closes the cases
    in which it answers without storing. *)
Ltac open_createEvent body side :=
  unfold createEvent, requireAuth;
  destruct (trimmed body "title"); [|side];
  destruct (trimmed body "description"); [|side];
  destruct (trimmed body "location"); [|side];
  cbv zeta;
  destruct (_ || _ || _ || _); [side|];
  destruct (_ || _ || _); [side|];
  destruct (bind_text _); [|side].

(** What a request can do to the tables of users and registrations. *)
Lemma createEvent_tables (db : Store) (s : Session) (body : Body) :
  users (store (createEvent db s body)) = users db
  /\ registrations (store (createEvent db s body)) = registrations db.
Proof.
  unfold createEvent, requireAuth. destruct s as [user|]; [|now split].
  destruct (trimmed body "title"); [|now split].
  destruct (trimmed body "description"); [|now split].
  destruct (trimmed body "location"); [|now split].
  cbv zeta. destruct (_ || _ || _ || _); [now split|].
  destruct (_ || _ || _); [now split|].
  destruct (bind_text _); now split.
Qed.

Lemma registerForEvent_store {ext : Externals} (env : Env) (db : Store)
    (s : Session) (params_id : string) :
  store (registerForEvent env db s params_id) = db
  \/ exists user,
       s = Some user
       /\ ~ registered db (Number params_id) (su_id user)
       /\ store (registerForEvent env db s params_id)
          = add_registration db (Number params_id) (su_id user).
Proof.
  unfold registerForEvent, requireAuth. destruct s as [user|]; [|now left].
  destruct (select_event db (Number params_id)) as [ev|]; [|now left].
  destruct (num_ge _ _); [now left|].
  destruct (insert_registration db (Number params_id) (su_id user))
    as [db'|] eqn:I; [|now left].
  right. exists user. split; [reflexivity|].
  destruct (sendRegistrationEmail _ _ _ _ _ _) as [handed thrown].
  cbn [store]. unfold insert_registration in I.
  destruct (existsb _ (registrations db)) eqn:E;
    [destruct (Number params_id); discriminate I|].
  split.
  - intros (r & Hin & Hev & Hu).
    apply not_true_iff_false in E. apply E. apply existsb_exists.
    exists r. split; [exact Hin|]. rewrite Hev. now apply Z.eqb_eq.
  - destruct (Number params_id); congruence.
Qed.


Lemma reachable_unique_pairs {ext : Externals} (env : Env) (db : Store)
    (issued : list SessionUser) :
  reachable env db issued -> unique_pairs (registrations db).
Proof.
  induction 1 as [|db issued s req _ IH _].
  - exact I.
  - destruct req; cbn [handle]; try exact IH.
    + destruct (signUp_rich db s body salt) as [(t & ->)|(r & ->)];
        [|exact IH].
      rewrite signUp_texts. cbv zeta. destruct (_ || _ || _); [exact IH|].
      destruct (select_user_by_email _ _); [exact IH|].
      unfold insert_user. now destruct (existsb _ _).
    + now rewrite logIn_store.
    + unfold newEventForm, requireAuth. now destruct s.
    + now rewrite (proj2 (createEvent_tables db s body)).
    + unfold getEvent. now destruct (select_event _ _).
    + destruct (registerForEvent_store env db s params_id)
        as [->|(user & _ & Hnew & ->)]; [exact IH|].
      apply unique_pairs_snoc; [exact IH|].
      intros r Hin [He Hu]. apply Hnew. exists r. now repeat split.
Qed.




(* ================================================================== *)
(** ** Event creation *)

(** [POST /events/new] on a form all of whose fields are strings. *)
Lemma createEvent_texts (db : Store) (s : Session) (body : TextBody) :
  createEvent db s body =
    requireAuth db s (fun user =>
      let title := trim (or_default (body "title") "") in
      let description := trim (or_default (body "description") "") in
      let location := trim (or_default (body "location") "") in
      let starts_at := body "starts_at" in
      let capacity := Number_or (body "capacity") 50 in
      if negb (truthy title) || negb (truthy description)
         || negb (truthy location) || negb (field_truthy starts_at)
      then respond db s (RenderNewEvent (Some Msg.fill_required))
      else if negb (isFinite capacity) || num_lt capacity (of_Z 1)
              || num_gt capacity (of_Z 5000)
      then respond db s (RenderNewEvent (Some Msg.capacity_range))
      else
        let '(db', lastInsertRowid) :=
          insert_event db (su_id user) title description location
                       (or_default starts_at "") capacity in
        respond db' s (Redirect (EventPage lastInsertRowid))).
Proof.
  unfold createEvent, requireAuth. destruct s as [user|]; [|reflexivity].
  rewrite !trimmed_texts, present_texts, Number_or_value_texts,
    bind_text_texts. cbv zeta.
  destruct (body "starts_at") as [[|c r]|];
    cbn [field_truthy or_default truthy negb];
    rewrite ?orb_true_r; reflexivity.
Qed.

Section CreateEvent.
Variables (db : Store) (user : SessionUser) (body : TextBody).

Let title := trim (or_default (body "title") "").
Let description := trim (or_default (body "description") "").
Let location := trim (or_default (body "location") "").

(** The event the handler inserts for a start text and a capacity. *)
Let created (starts_at : string) (capacity : number) : Event :=
  {| e_id := next_rowid (map e_id (events db));
     e_host_user_id := su_id user; e_title := title;
     e_description := description; e_location := location;
     e_starts_at := starts_at; e_capacity := capacity |}.

Lemma createEvent_missing_field :
  title = "" \/ description = "" \/ location = ""
  \/ body "starts_at" = None \/ body "starts_at" = Some "" ->
  createEvent db (Some user) body =
    respond db (Some user) (RenderNewEvent (Some Msg.fill_required)).
Proof.
  intros H. rewrite createEvent_texts. unfold requireAuth. cbv zeta.
  fold title description location.
  replace (negb (truthy title) || negb (truthy description)
           || negb (truthy location) || negb (field_truthy (body "starts_at")))
    with true; [reflexivity|].
  symmetry. rewrite !orb_true_iff, !negb_true_iff, !truthy_false.
  destruct H as [H|[H|[H|[H|H]]]]; try tauto; right; now rewrite H.
Qed.

(** With the required fields present the capacity decides: the event is
    inserted exactly when [Number(capacity || 50)] is finite and lies
    between 1 and 5000.  Nothing asks for an integer. *)
Lemma createEvent_capacity_rule (starts_at : string) :
  title <> "" -> description <> "" -> location <> "" ->
  body "starts_at" = Some starts_at -> starts_at <> "" ->
  createEvent db (Some user) body =
    match Number_or (body "capacity") 50 with
    | Fin q =>
        if Qle_bool 1 q && Qle_bool q 5000
        then respond
               {| users := users db;
                  events := events db ++ [created starts_at (Fin q)];
                  registrations := registrations db |}
               (Some user)
               (Redirect (EventPage (next_rowid (map e_id (events db)))))
        else respond db (Some user)
               (RenderNewEvent (Some Msg.capacity_range))
    | _ => respond db (Some user) (RenderNewEvent (Some Msg.capacity_range))
    end.
Proof.
  intros Ht Hd Hl Hs Hs'. rewrite createEvent_texts. unfold requireAuth.
  cbv zeta. fold title description location.
  apply truthy_true in Ht, Hd, Hl, Hs'. rewrite Ht, Hd, Hl, Hs.
  cbn [field_truthy or_default]. rewrite Hs'. cbn [negb orb].
  destruct (Number_or (body "capacity") 50) as [|neg|q]; try reflexivity.
  unfold num_gt, num_lt, of_Z, Qltb. cbn [isFinite negb orb].
  change (inject_Z 1) with 1%Q. change (inject_Z 5000) with 5000%Q.
  destruct (Qle_bool 1 q), (Qle_bool q 5000); reflexivity.
Qed.

End CreateEvent.

Lemma createEvent_keeps_capacities (db : Store) (s : Session) (body : Body) :
  capacities_in_range db -> capacities_in_range (store (createEvent db s body)).
Proof.
  intros Hinv. unfold createEvent, requireAuth.
  destruct s as [user|]; [|exact Hinv].
  destruct (trimmed body "title"); [|exact Hinv].
  destruct (trimmed body "description"); [|exact Hinv].
  destruct (trimmed body "location"); [|exact Hinv].
  cbv zeta. destruct (_ || _ || _ || _); [exact Hinv|].
  destruct (Number_or_value (body "capacity") 50) as [|neg|q];
    try exact Hinv.
  unfold num_gt, num_lt, of_Z, Qltb. cbn [isFinite negb orb].
  destruct (Qle_bool (inject_Z 1) q) eqn:Hlo; [|exact Hinv].
  destruct (Qle_bool q (inject_Z 5000)) eqn:Hhi; [|exact Hinv].
  cbn [negb orb]. destruct (bind_text _); [|exact Hinv].
  cbn [insert_event respond store].
  unfold capacities_in_range. cbn [events].
  apply Forall_app. split; [exact Hinv|].
  constructor; [|constructor]. exists q. cbn [e_capacity].
  apply Qle_bool_iff in Hlo, Hhi. now repeat split.
Qed.

Lemma reachable_capacities {ext : Externals} (env : Env) (db : Store)
    (issued : list SessionUser) :
  reachable env db issued -> capacities_in_range db.
Proof.
  induction 1 as [|db issued s req _ IH _].
  - constructor.
  - destruct req; cbn [handle]; try exact IH.
    + destruct (signUp_rich db s body salt) as [(t & ->)|(r & ->)];
        [|exact IH].
      rewrite signUp_texts. cbv zeta. destruct (_ || _ || _); [exact IH|].
      destruct (select_user_by_email _ _); [exact IH|].
      unfold insert_user. now destruct (existsb _ _).
    + now rewrite logIn_store.
    + unfold newEventForm, requireAuth. now destruct s.
    + now apply createEvent_keeps_capacities.
    + unfold getEvent. now destruct (select_event _ _).
    + destruct (registerForEvent_store env db s params_id)
        as [->|(user & _ & _ & ->)]; exact IH.
Qed.

(** C10.  When the capacity field is absent or empty the capacity is 50:
    the handler never answers "Capacity must be 1-5000.", and with the
    required fields present it inserts the event with capacity 50 and
    redirects to its page. *)
Theorem C10_default_capacity (db : Store) (user : SessionUser)
    (body : TextBody) :
  body "capacity" = None \/ body "capacity" = Some "" ->
  let title := trim (or_default (body "title") "") in
  let description := trim (or_default (body "description") "") in
  let location := trim (or_default (body "location") "") in
  let out := createEvent db (Some user) body in
  response out <> RenderNewEvent (Some Msg.capacity_range)
  /\ forall starts_at,
       title <> "" -> description <> "" -> location <> "" ->
       body "starts_at" = Some starts_at -> starts_at <> "" ->
       response out = Redirect (EventPage (next_rowid (map e_id (events db))))
       /\ events (store out) =
            (events db ++
               [{| e_id := next_rowid (map e_id (events db));
                   e_host_user_id := su_id user; e_title := title;
                   e_description := description; e_location := location;
                   e_starts_at := starts_at; e_capacity := of_Z 50 |}])%list.
Proof.
  intros Hcap title description location out.
  assert (Hnum : Number_or (body "capacity") 50 = of_Z 50).
  { destruct Hcap as [-> | ->]; reflexivity. }
  assert (Hok : forall starts_at,
             title <> "" -> description <> "" -> location <> "" ->
             body "starts_at" = Some starts_at -> starts_at <> "" ->
             response out =
               Redirect (EventPage (next_rowid (map e_id (events db))))
             /\ events (store out) =
                  (events db ++
                     [{| e_id := next_rowid (map e_id (events db));
                         e_host_user_id := su_id user; e_title := title;
                         e_description := description;
                         e_location := location;
                         e_starts_at := starts_at;
                         e_capacity := of_Z 50 |}])%list).
  { intros starts_at Ht Hd Hl Hs Hs'. subst out.
    rewrite (createEvent_capacity_rule db user body starts_at Ht Hd Hl Hs Hs').
    rewrite Hnum. now split. }
  split; [|exact Hok].
  destruct (string_dec title "") as [Ht|Ht];
    [subst out; rewrite createEvent_missing_field by tauto; discriminate|].
  destruct (string_dec description "") as [Hd|Hd];
    [subst out; rewrite createEvent_missing_field by tauto; discriminate|].
  destruct (string_dec location "") as [Hl|Hl];
    [subst out; rewrite createEvent_missing_field by tauto; discriminate|].
  destruct (body "starts_at") as [starts_at|] eqn:Hs;
    [|subst out; rewrite createEvent_missing_field by tauto; discriminate].
  destruct (string_dec starts_at "") as [Hs'|Hs'];
    [subst out; rewrite createEvent_missing_field
       by (rewrite Hs, Hs'; tauto); discriminate|].
  rewrite (proj1 (Hok starts_at Ht Hd Hl eq_refl Hs')). discriminate.
Qed.

Lemma C10_default_capacity_witness :
  let absent := form [("title", "Meetup"); ("description", "Monthly");
                      ("location", "Hall");
                      ("starts_at", "2025-06-01T10:00")] in
  let empty := Sample.event_form "2025-06-01T10:00" "" in
  let db := Sample.store_with (of_Z 1) in
  map e_capacity
    (events (store (createEvent db (Sample.as_session Sample.alice) absent)))
  = [of_Z 1; of_Z 50]
  /\ map e_capacity
       (events (store (createEvent db (Sample.as_session Sample.alice) empty)))
     = [of_Z 1; of_Z 50].
Proof.
  split.
  - destruct (C10_default_capacity (Sample.store_with (of_Z 1))
                (Sample.logged_in Sample.alice)
                (form [("title", "Meetup"); ("description", "Monthly");
                       ("location", "Hall");
                       ("starts_at", "2025-06-01T10:00")]))
      as [_ Hok]; [left; reflexivity|].
    destruct (Hok "2025-06-01T10:00") as [_ Hev];
      [discriminate | discriminate | discriminate | reflexivity
      | discriminate |].
    unfold Sample.as_session. rewrite Hev. reflexivity.
  - destruct (C10_default_capacity (Sample.store_with (of_Z 1))
                (Sample.logged_in Sample.alice)
                (Sample.event_form "2025-06-01T10:00" ""))
      as [_ Hok]; [right; reflexivity|].
    destruct (Hok "2025-06-01T10:00") as [_ Hev];
      [discriminate | discriminate | discriminate | reflexivity
      | discriminate |].
    unfold Sample.as_session. rewrite Hev. reflexivity.
Defined.

(** C3, at its inputs.  With the other fields valid, capacity "0", "5001"
    and a text that is no number are refused with "Capacity must be
    1-5000."; "1" and "5000" are accepted; and so is "1.5", which is not
    an integer: the event is stored with capacity 3/2. *)
Theorem C3_capacity_at_inputs :
  let run capacity :=
    createEvent (Sample.store_with (of_Z 1)) (Sample.as_session Sample.alice)
      (Sample.event_form "2025-06-01T10:00" capacity) in
  let refused := RenderNewEvent (Some Msg.capacity_range) in
  response (run "0") = refused
  /\ response (run "5001") = refused
  /\ response (run "many") = refused
  /\ response (run "1") = Redirect (EventPage 2)
  /\ response (run "5000") = Redirect (EventPage 2)
  /\ response (run "1.5") = Redirect (EventPage 2)
  /\ map e_capacity (events (store (run "1.5"))) = [of_Z 1; Fin (3 # 2)]
  /\ integer_value (Fin (3 # 2)) = None.
Proof. vm_compute. repeat split. Qed.

(** C4, at its inputs.  The title is stored trimmed, and a title of
    blanks is refused with "Fill all required fields."; a start text of
    blanks is accepted, and a start text is stored with the blanks around
    it. *)
Theorem C4_starts_at_not_trimmed :
  let run title starts_at :=
    createEvent (Sample.store_with (of_Z 1)) (Sample.as_session Sample.alice)
      (form [("title", title); ("description", "Monthly");
             ("location", "Hall"); ("starts_at", starts_at);
             ("capacity", "10")]) in
  response (run "   " "2025-06-01T10:00")
    = RenderNewEvent (Some Msg.fill_required)
  /\ response (run " Meetup " "   ") = Redirect (EventPage 2)
  /\ map e_starts_at (events (store (run " Meetup " "   ")))
     = ["2025-03-01 18:00:00"; "   "]
  /\ map e_title (events (store (run " Meetup " " 2025-06-01T10:00 ")))
     = ["Meetup"; "Meetup"]
  /\ map e_starts_at (events (store (run " Meetup " " 2025-06-01T10:00 ")))
     = ["2025-03-01 18:00:00"; " 2025-06-01T10:00 "].
Proof. vm_compute. repeat split. Qed.

(* ================================================================== *)
(** ** Hosts and sessions *)

Lemma consistent_step (db db' : Store) (issued : list SessionUser)
    (s' : Session) :
  consistent db issued ->
  (forall id, user_exists db id -> user_exists db' id) ->
  NoDup (map u_id (users db')) ->
  (forall e, In e (events db') ->
     In e (events db) \/ user_exists db' (e_host_user_id e)) ->
  match s' with
  | Some user => user_exists db' (su_id user)
  | None => True
  end ->
  consistent db' (issue s' issued).
Proof.
  intros [[_ Hhost] Hissued] Hmono Hkey Hev Hs'. split; [split|].
  - exact Hkey.
  - intros e He. destruct (Hev e He) as [Hold|Hnew]; [|exact Hnew].
    apply Hmono. now apply Hhost.
  - intros user Hin. destruct s' as [u|]; cbn [issue] in Hin.
    + destruct Hin as [<-|Hin]; [exact Hs'|]. apply Hmono. now apply Hissued.
    + apply Hmono. now apply Hissued.
Qed.

(** A request that leaves users and events alone and hands back the
    session it came with. *)
Lemma consistent_unchanged (db db' : Store) (issued : list SessionUser)
    (s : Session) :
  consistent db issued -> session_known issued s ->
  users db' = users db -> events db' = events db ->
  consistent db' (issue s issued).
Proof.
  intros Hc Hs Hu He.
  assert (Hex : forall id, user_exists db id -> user_exists db' id)
    by (unfold user_exists; now rewrite Hu).
  apply (consistent_step db); try assumption.
  - rewrite Hu. apply Hc.
  - intros e Hin. left. now rewrite <- He.
  - destruct s as [user|]; [|exact I]. apply Hex. now apply Hc.
Qed.

Lemma registerForEvent_session {ext : Externals} (env : Env) (db : Store)
    (s : Session) (params_id : string) :
  session (registerForEvent env db s params_id) = s.
Proof.
  unfold registerForEvent, requireAuth. destruct s as [user|]; [|reflexivity].
  destruct (select_event _ _); [|reflexivity].
  destruct (num_ge _ _); [reflexivity|].
  destruct (insert_registration _ _ _); [|reflexivity].
  now destruct (sendRegistrationEmail _ _ _ _ _ _).
Qed.

Lemma handle_consistent {ext : Externals} (env : Env) (db : Store)
    (issued : list SessionUser) (s : Session) (req : Request) :
  consistent db issued -> session_known issued s ->
  consistent (store (handle env db s req))
             (issue (session (handle env db s req)) issued).
Proof.
  intros Hc Hs.
  assert (Hsame : consistent db (issue s issued))
    by now apply (consistent_unchanged db db).
  destruct req; cbn [handle].
  - exact Hsame.
  - (* signup *)
    destruct (signUp_rich db s body salt) as [(t & ->)|(r & ->)];
      [|exact Hsame].
    rewrite signUp_texts. cbv zeta. destruct (_ || _ || _); [exact Hsame|].
    destruct (select_user_by_email _ _); [exact Hsame|].
    unfold insert_user. destruct (existsb _ _); [exact Hsame|].
    cbn [respond store session].
    set (row := {| u_id := next_rowid (map u_id (users db)) |}).
    assert (Hrow : user_exists
                     {| users := users db ++ [row]; events := events db;
                        registrations := registrations db |}
                     (next_rowid (map u_id (users db)))).
    { exists row. split; [|reflexivity]. cbn [users].
      apply in_or_app. right. now left. }
    apply (consistent_step db); try assumption.
    + intros id (u & Hin & Hid). exists u. split; [|exact Hid].
      cbn [users]. apply in_or_app. now left.
    + cbn [users]. rewrite map_app. cbn [map].
      apply (Permutation_NoDup (Permutation_cons_append _ _)).
      constructor; [|apply Hc].
      intros Hin.
      pose proof (next_rowid_above (map u_id (users db))) as Habove.
      rewrite Forall_forall in Habove. specialize (Habove _ Hin).
      cbn [u_id row] in Habove. lia.
    + intros e Hin. now left.
  - (* login *)
    destruct (logIn_rich db s body) as [(e & p & He & Hp)|(r & ->)];
      [|exact Hsame].
    rewrite (logIn_text db s body e p He Hp).
    destruct (select_user_by_email _ _) as [u|] eqn:F; [|exact Hsame].
    destruct (negb _); [exact Hsame|]. cbn [respond store session].
    apply select_user_by_email_Some in F.
    apply (consistent_step db); try assumption; try tauto.
    + apply Hc.
    + exists u. now split.
  - (* logout *)
    cbn [logOut respond store session issue]. exact Hc.
  - unfold newEventForm, requireAuth. now destruct s.
  - (* new event *)
    destruct s as [user|]; [|exact Hsame].
    open_createEvent body ltac:(exact Hsame).
    cbn [insert_event respond store session].
    apply (consistent_step db); try assumption; try tauto.
    + apply Hc.
    + intros e Hin. cbn [events] in Hin. apply in_app_or in Hin.
      destruct Hin as [Hin|[<-|[]]]; [now left|]. right.
      cbn [e_host_user_id]. apply Hc. exact Hs.
    + apply Hc. exact Hs.
  - unfold getEvent. now destruct (select_event _ _).
  - (* register *)
    rewrite registerForEvent_session.
    destruct (registerForEvent_store env db s params_id)
      as [->|(user & _ & _ & ->)]; [exact Hsame|].
    now apply (consistent_unchanged db).
Qed.

(** In every state the server reaches, user ids are distinct, every
    event has its host among the users, and so has every session. *)
Lemma reachable_consistent {ext : Externals} (env : Env) (db : Store)
    (issued : list SessionUser) :
  reachable env db issued -> consistent db issued.
Proof.
  induction 1 as [|db issued s req _ IH Hs].
  - split; [split|]; [constructor | intros e [] | intros u []].
  - now apply handle_consistent.
Qed.

(* ================================================================== *)
(** ** The event list *)

(** *** The order of the keys *)

Lemma string_leb_iff (x y : string) :
  String.leb x y = true <-> x = y \/ String_as_OT.lt x y.
Proof.
  unfold String.leb. rewrite <- String_as_OT.cmp_lt, <- String_as_OT.cmp_eq.
  unfold String_as_OT.cmp. destruct (String.compare x y); split;
    intros H; try reflexivity; try discriminate H; try tauto.
  destruct H as [H|H]; discriminate H.
Qed.

Lemma string_leb_trans (x y z : string) :
  String.leb x y = true -> String.leb y z = true -> String.leb x z = true.
Proof.
  rewrite !string_leb_iff. intros [->|Hxy] [->|Hyz]; auto.
  right. exact (String_as_OT.lt_trans _ _ _ Hxy Hyz).
Qed.

Lemma key_leb_refl (a : option string) : key_leb a a = true.
Proof.
  destruct a as [x|]; [|reflexivity]. apply string_leb_iff. now left.
Qed.

Lemma key_leb_total (a b : option string) :
  key_leb a b = false -> key_leb b a = true.
Proof.
  destruct a as [x|], b as [y|]; simpl; try congruence.
  destruct (String.leb_total x y); congruence.
Qed.

Lemma key_leb_trans (a b c : option string) :
  key_leb a b = true -> key_leb b c = true -> key_leb a c = true.
Proof.
  destruct a as [x|], b as [y|], c as [z|]; simpl; try congruence.
  apply string_leb_trans.
Qed.

Lemma key_ltb_trans (a b c : option string) :
  key_ltb a b = true -> key_ltb b c = true -> key_ltb a c = true.
Proof.
  unfold key_ltb. rewrite !negb_true_iff. intros Hab Hbc.
  destruct (key_leb c a) eqn:Hca; [|reflexivity].
  apply key_leb_total in Hab.
  now rewrite (key_leb_trans _ _ _ Hca Hab) in Hbc.
Qed.

(** *** The sort *)

Section OrderByFacts.
Context {A : Type} (key : A -> option string) (tie : A -> A -> bool).

Lemma before_le (x y : A) :
  before key tie x y = true -> key_leb (key x) (key y) = true.
Proof.
  unfold before, key_ltb. intros H. apply orb_true_iff in H.
  destruct H as [H|H].
  - apply negb_true_iff in H. now apply key_leb_total.
  - now apply andb_true_iff in H.
Qed.

Lemma not_before_le (x y : A) :
  before key tie x y = false -> key_leb (key y) (key x) = true.
Proof.
  unfold before, key_ltb. intros H. apply orb_false_iff in H.
  destruct H as [H _]. now apply negb_false_iff in H.
Qed.

Lemma insert_row_perm (x : A) (l : list A) :
  Permutation (insert_row key tie x l) (x :: l).
Proof.
  induction l as [|y l IH]; cbn [insert_row]; [reflexivity|].
  destruct (before key tie x y); [reflexivity|].
  rewrite IH. apply perm_swap.
Qed.

Lemma order_by_perm (l : list A) : Permutation (order_by key tie l) l.
Proof.
  induction l as [|x l IH]; cbn [order_by fold_right]; [reflexivity|].
  fold (order_by key tie l). rewrite insert_row_perm. now apply perm_skip.
Qed.

Lemma insert_row_sorted (x : A) (l : list A) :
  Sorted (key_le key) l -> Sorted (key_le key) (insert_row key tie x l).
Proof.
  induction 1 as [|y l Hl IH Hhd]; cbn [insert_row].
  - repeat constructor.
  - destruct (before key tie x y) eqn:E.
    + constructor; [now constructor|]. constructor. now apply before_le.
    + constructor; [exact IH|].
      apply not_before_le in E.
      destruct Hhd as [|z l' Hyz]; cbn [insert_row].
      * now constructor.
      * destruct (before key tie x z); now constructor.
Qed.

(** Whatever the sorter does with equal keys, the rows come out in
    ascending order of the keys. *)
Lemma order_by_sorted (l : list A) :
  Sorted (key_le key) (order_by key tie l).
Proof.
  induction l as [|x l IH]; cbn [order_by fold_right]; [constructor|].
  now apply insert_row_sorted.
Qed.

(** A list sorted by the keys that is a rearrangement of a list with
    strictly ascending keys is that list. *)
Lemma sorted_perm_unique (s l : list A) :
  StronglySorted (key_lt key) s -> Sorted (key_le key) l ->
  Permutation l s -> l = s.
Proof.
  revert l. induction s as [|a s IH]; intros l Hs Hl Hperm.
  - now apply Permutation_nil, Permutation_sym.
  - destruct l as [|x l];
      [now apply Permutation_nil_cons in Hperm|].
    apply StronglySorted_inv in Hs. destruct Hs as [Hs Ha].
    assert (Hx : Forall ((key_le key) x) l).
    { assert (T : Relations_1.Transitive (key_le key))
        by (intros u v w; apply key_leb_trans).
      apply Sorted_StronglySorted in Hl; [|exact T].
      now apply StronglySorted_inv in Hl. }
    assert (x = a) as ->.
    { pose proof (Permutation_in x Hperm (or_introl eq_refl)) as [->|Hin];
        [reflexivity|].
      rewrite Forall_forall in Ha, Hx. specialize (Ha x Hin).
      unfold key_lt, key_ltb in Ha. apply negb_true_iff in Ha.
      pose proof (Permutation_in a (Permutation_sym Hperm)
                    (or_introl eq_refl)) as [->|Hin'].
      - now rewrite key_leb_refl in Ha.
      - specialize (Hx a Hin'). unfold key_le in Hx. congruence. }
    f_equal. apply IH; [exact Hs | now apply Sorted_inv in Hl |].
    exact (Permutation_cons_inv Hperm).
Qed.

(** In a list sorted by the keys, whatever stands before a row of key
    NULL has the key NULL. *)
Lemma sorted_nulls_first (l1 l2 : list A) (e : A) :
  Sorted (key_le key) (l1 ++ e :: l2) -> key e = None ->
  forall x, In x l1 -> key x = None.
Proof.
  intros Hsorted Hnull.
  assert (T : Relations_1.Transitive (key_le key))
    by (intros u v w; apply key_leb_trans).
  apply Sorted_StronglySorted in Hsorted; [|exact T].
  induction l1 as [|y l1 IH]; intros x Hx; [destruct Hx|].
  cbn [app] in Hsorted. apply StronglySorted_inv in Hsorted.
  destruct Hsorted as [Hrest Hy]. destruct Hx as [<-|Hx]; [|now apply IH].
  rewrite Forall_forall in Hy.
  specialize (Hy e (in_elt e l1 l2)). unfold key_le in Hy.
  rewrite Hnull in Hy. now destruct (key y).
Qed.

End OrderByFacts.

Lemma order_by_map {A B : Type} (key : B -> option string)
    (tie : B -> B -> bool) (f : A -> B) (l : list A) :
  map f (order_by (fun a => key (f a)) (fun a b => tie (f a) (f b)) l)
  = order_by key tie (map f l).
Proof.
  induction l as [|x l IH]; cbn [order_by fold_right map]; [reflexivity|].
  fold (order_by (fun a => key (f a)) (fun a b => tie (f a) (f b)) l).
  fold (order_by key tie (map f l)).
  rewrite <- IH.
  generalize (order_by (fun a => key (f a)) (fun a b => tie (f a) (f b)) l).
  intros m.
  induction m as [|y m IHm]; cbn [insert_row map]; [reflexivity|].
  unfold before.
  destruct (key_ltb (key (f x)) (key (f y))
            || key_leb (key (f x)) (key (f y)) && tie (f x) (f y));
    cbn [map]; [reflexivity|].
  now rewrite IHm.
Qed.

(** *** The join *)

Lemma filter_by_key (l : list User) (u : User) :
  NoDup (map u_id l) -> In u l ->
  filter (fun x => u_id x =? u_id u) l = [u].
Proof.
  induction l as [|x l IH]; intros Hnd Hin; [contradiction|].
  cbn [map] in Hnd. apply NoDup_cons_iff in Hnd. destruct Hnd as [Hx Hl].
  cbn [filter]. destruct (Z.eqb_spec (u_id x) (u_id u)) as [E|E].
  - destruct Hin as [->|Hin].
    + f_equal. clear IH Hl.
      induction l as [|y l IHl]; [reflexivity|]. cbn [filter].
      destruct (Z.eqb_spec (u_id y) (u_id u)) as [Ey|Ey].
      * exfalso. apply Hx. rewrite <- Ey. now left.
      * apply IHl. intros Hin. apply Hx. now right.
    + exfalso. apply Hx. rewrite E. now apply in_map.
  - destruct Hin as [->|Hin]; [congruence|]. now apply IH.
Qed.

(** With every host present, the join yields one row per event, in the
    order of the table. *)
Lemma select_events_all (db : Store) :
  hosts_present db -> map event (select_events db) = events db.
Proof.
  intros [Hkey Hhost]. unfold select_events.
  induction (events db) as [|e l IH]; [reflexivity|].
  cbn [flat_map]. rewrite map_app, IH by (intros; apply Hhost; now right).
  destruct (Hhost e (or_introl eq_refl)) as (u & Hin & Hid).
  rewrite <- Hid, (filter_by_key _ u Hkey Hin). reflexivity.
Qed.

Lemma listEvents_ordered {ext : Externals} (db : Store) (s : Session) :
  hosts_present db ->
  exists rows,
    listEvents db s = respond db s (RenderIndex rows)
    /\ Permutation (map event rows) (events db)
    /\ Sorted (key_le start_key) (map event rows)
    /\ forall e1 e2 e3,
         Permutation (events db) [e1; e2; e3] ->
         key_lt start_key e1 e2 -> key_lt start_key e2 e3 ->
         map event rows = [e1; e2; e3].
Proof.
  intros Hhosts.
  exists (order_by (fun row => start_key (event row))
                   (fun a b => start_tie (event a) (event b))
                   (select_events db)).
  assert (Hrows :
    map event (order_by (fun row => start_key (event row))
                        (fun a b => start_tie (event a) (event b))
                        (select_events db))
    = order_by start_key start_tie (events db)).
  { rewrite <- (select_events_all db Hhosts).
    exact (order_by_map start_key start_tie event (select_events db)). }
  rewrite Hrows. split; [reflexivity|].
  split; [apply order_by_perm|].
  split; [apply order_by_sorted|].
  intros e1 e2 e3 Hperm H12 H23.
  apply sorted_perm_unique with (key := start_key).
  - repeat constructor; try assumption.
    exact (key_ltb_trans _ _ _ H12 H23).
  - apply order_by_sorted.
  - now rewrite order_by_perm.
Qed.

(** C5, as the specification words it, fails: the list is not in the
    order of the stored start texts.  Alice creates three events whose
    stored texts ascend as strings; whichever way the sorter orders equal
    keys, [GET /] lists the last one first, since [datetime] reads no
    time in it and NULL sorts first.  And of the two texts
    [2025-06-01 12:00] and [2025-06-01T10:00], both of which [datetime]
    reads, the second is listed first although it is the greater
    string. *)
Lemma C5_listed_against_text_order :
  let listed (newest_first : bool) (t1 t2 t3 : string) :=
    match response (listEvents (ext := Sample.sqlite newest_first)
                      (fst (Sample.run_three newest_first t1 t2 t3)) None)
    with
    | RenderIndex rows => map (fun row => e_starts_at (event row)) rows
    | _ => []
    end in
  let stored (t1 t2 t3 : string) :=
    map e_starts_at (events (fst (Sample.run_three true t1 t2 t3))) in
  stored "2025-06-01 10:00" "2025-06-02 10:00" "tomorrow"
    = ["2025-06-01 10:00"; "2025-06-02 10:00"; "tomorrow"]
  /\ String.ltb "2025-06-01 10:00" "2025-06-02 10:00" = true
  /\ String.ltb "2025-06-02 10:00" "tomorrow" = true
  /\ (forall newest_first,
        listed newest_first "2025-06-01 10:00" "2025-06-02 10:00" "tomorrow"
        = ["tomorrow"; "2025-06-01 10:00"; "2025-06-02 10:00"])
  /\ String.ltb "2025-06-01 12:00" "2025-06-01T10:00" = true
  /\ (forall newest_first,
        listed newest_first "2025-06-01 12:00" "2025-06-01T10:00" "tomorrow"
        = ["tomorrow"; "2025-06-01T10:00"; "2025-06-01 12:00"]).
Proof.
  cbv zeta. repeat split; try (intros [|]); vm_compute; reflexivity.
Qed.

(** C5, amended.  In every state the server can reach, [GET /] renders
    one row per event, and the rows are in ascending order of the text
    [datetime(starts_at)], compared as a string, with the events whose
    start text [datetime] cannot read, for which it yields NULL, first.
    In particular three events for which [datetime] yields
    T1 < T2 < T3 are listed in that order, in whatever order they were
    inserted and whatever the sorter does with equal keys. *)
Theorem C5_list_ordered_by_start {ext : Externals} (env : Env) (db : Store)
    (issued : list SessionUser) (s : Session) :
  reachable env db issued ->
  exists rows,
    listEvents db s = respond db s (RenderIndex rows)
    /\ Permutation (map event rows) (events db)
    /\ Sorted (key_le start_key) (map event rows)
    /\ forall e1 e2 e3,
         Permutation (events db) [e1; e2; e3] ->
         key_lt start_key e1 e2 -> key_lt start_key e2 e3 ->
         map event rows = [e1; e2; e3].
Proof.
  intros Hreach. apply listEvents_ordered.
  exact (proj1 (reachable_consistent env db issued Hreach)).
Qed.

Lemma C5_list_ordered_by_start_witness :
  let after_signup :=
    handle (ext := Sample.externals true) Sample.env_no_smtp empty_store None
      (PostSignup Sample.alice_form "s1") in
  let create db starts_at :=
    store (handle (ext := Sample.externals true) Sample.env_no_smtp db
             (Sample.as_session Sample.alice)
             (PostNewEvent (Sample.talk_form starts_at))) in
  let db := create (create (create (store after_signup)
                              "2025-03-03 09:00:00")
                      "2025-03-01 09:00:00")
              "2025-03-02 09:00:00" in
  exists rows,
    response (listEvents (ext := Sample.externals true) db None)
    = RenderIndex rows
    /\ map event rows =
         [Sample.talk 2 "2025-03-01 09:00:00";
          Sample.talk 3 "2025-03-02 09:00:00";
          Sample.talk 1 "2025-03-03 09:00:00"].
Proof.
  intros after_signup create db.
  pose proof (reachable_request (ext := Sample.externals true)
                Sample.env_no_smtp _ _ None
                (PostSignup Sample.alice_form "s1")
                (reachable_start _) I) as st1.
  pose proof (reachable_request Sample.env_no_smtp _ _
                (Sample.as_session Sample.alice)
                (PostNewEvent (Sample.talk_form "2025-03-03 09:00:00"))
                st1 (or_introl eq_refl)) as st2.
  pose proof (reachable_request Sample.env_no_smtp _ _
                (Sample.as_session Sample.alice)
                (PostNewEvent (Sample.talk_form "2025-03-01 09:00:00"))
                st2 (or_introl eq_refl)) as st3.
  pose proof (reachable_request Sample.env_no_smtp _ _
                (Sample.as_session Sample.alice)
                (PostNewEvent (Sample.talk_form "2025-03-02 09:00:00"))
                st3 (or_introl eq_refl)) as st4.
  destruct (C5_list_ordered_by_start Sample.env_no_smtp _ _ None st4)
    as (rows & Hresp & _ & _ & Hthree).
  exists rows. split; [exact (f_equal response Hresp)|].
  apply Hthree.
  - exact (Permutation_cons_append
             [Sample.talk 2 "2025-03-01 09:00:00";
              Sample.talk 3 "2025-03-02 09:00:00"]
             (Sample.talk 1 "2025-03-03 09:00:00")).
  - reflexivity.
  - reflexivity.
Defined.

(* ================================================================== *)
(** * Further properties of the server *)

(** ** A sample run *)

Lemma run_full_store : fst Sample.run_full = Sample.store_bob_in (of_Z 1).
Proof. reflexivity. Qed.

Lemma run_signups_reachable :
  reachable (ext := Sample.externals true) Sample.env_no_smtp
    (fst Sample.run_signups) (snd Sample.run_signups).
Proof.
  exact (reachable_request Sample.env_no_smtp _ _ None
           (PostSignup Sample.bob_form "s2")
           (reachable_request Sample.env_no_smtp _ _ None
              (PostSignup Sample.alice_form "s1") (reachable_start _) I)
           I).
Qed.

Lemma run_meetup_reachable :
  reachable (ext := Sample.externals true) Sample.env_no_smtp
    (fst Sample.run_meetup) (snd Sample.run_meetup).
Proof.
  exact (reachable_request Sample.env_no_smtp _ _
           (Sample.as_session Sample.alice)
           (PostNewEvent (Sample.event_form "2025-03-01 18:00:00" "1"))
           run_signups_reachable (or_intror (or_introl eq_refl))).
Qed.

Lemma run_full_reachable :
  reachable (ext := Sample.externals true) Sample.env_no_smtp
    (fst Sample.run_full) (snd Sample.run_full).
Proof.
  exact (reachable_request Sample.env_no_smtp _ _
           (Sample.as_session Sample.bob) (PostRegister "1")
           run_meetup_reachable (or_intror (or_introl eq_refl))).
Qed.

(** ** What a request can change *)

Lemma signUp_change {ext : Externals} (db : Store) (s : Session)
    (body : Body) (salt : string) :
  change db s (store (signUp db s body salt)).
Proof.
  destruct (signUp_rich db s body salt) as [(t & ->)|(r & ->)];
    [|constructor].
  rewrite signUp_texts. cbv zeta. destruct (_ || _ || _); [constructor|].
  destruct (select_user_by_email db _) as [u|] eqn:F; [constructor|].
  unfold insert_user. destruct (existsb _ _); [constructor|].
  cbn [respond store].
  apply (change_user db s
           {| u_id := next_rowid (map u_id (users db));
              u_name := trim (or_default (t "name") "");
              u_email := toLowerCase (trim (or_default (t "email") ""));
              u_password_hash :=
                bcrypt_hash (or_default (t "password") "") 12 salt |}).
  - reflexivity.
  - exact (proj1 (select_user_by_email_None db _) F).
Qed.

Lemma createEvent_change (db : Store) (s : Session) (body : Body) :
  change db s (store (createEvent db s body)).
Proof.
  unfold createEvent, requireAuth. destruct s as [user|]; [|constructor].
  destruct (trimmed body "title"); [|constructor].
  destruct (trimmed body "description"); [|constructor].
  destruct (trimmed body "location"); [|constructor].
  cbv zeta. destruct (_ || _ || _ || _); [constructor|].
  destruct (Number_or_value (body "capacity") 50) as [|neg|q];
    try constructor.
  unfold num_gt, num_lt, of_Z, Qltb. cbn [isFinite negb orb].
  destruct (Qle_bool (inject_Z 1) q) eqn:Hlo; [|constructor].
  destruct (Qle_bool q (inject_Z 5000)) eqn:Hhi; [|constructor].
  cbn [negb orb]. destruct (bind_text _); [|constructor].
  cbn [insert_event respond store].
  apply Qle_bool_iff in Hlo, Hhi.
  eapply (change_event db (Some user) user _ q); try reflexivity.
  now split.
Qed.

Lemma registerForEvent_change {ext : Externals} (env : Env) (db : Store)
    (s : Session) (params_id : string) :
  change db s (store (registerForEvent env db s params_id)).
Proof.
  unfold registerForEvent, requireAuth. destruct s as [user|]; [|constructor].
  destruct (select_event db (Number params_id)) as [ev|] eqn:Hload;
    [|constructor].
  destruct (num_ge _ _) eqn:Hroom; [constructor|].
  destruct (insert_registration db (Number params_id) (su_id user))
    as [db'|] eqn:I; [|constructor].
  destruct (sendRegistrationEmail _ _ _ _ _ _) as [handed thrown].
  cbn [store]. unfold insert_registration in I.
  destruct (existsb _ (registrations db)) eqn:E;
    [destruct (Number params_id); discriminate I|].
  assert (db' = add_registration db (Number params_id) (su_id user)) as ->
    by (destruct (Number params_id); congruence).
  apply (change_registration db (Some user) user _ ev);
    try reflexivity; try assumption.
  intros (r & Hin & Hev & Hu).
  apply not_true_iff_false in E. apply E. apply existsb_exists.
  exists r. split; [exact Hin|]. rewrite Hev. now apply Z.eqb_eq.
Qed.

Lemma handle_change {ext : Externals} (env : Env) (db : Store) (s : Session)
    (req : Request) :
  change db s (store (handle env db s req)).
Proof.
  destruct req; cbn [handle].
  - constructor.
  - apply signUp_change.
  - rewrite logIn_store. constructor.
  - constructor.
  - unfold newEventForm, requireAuth. destruct s; constructor.
  - apply createEvent_change.
  - unfold getEvent. destruct (select_event _ _); constructor.
  - apply registerForEvent_change.
Qed.

(** ** Keys and references *)

Lemma sql_eq_same_integer (a b : Z) (x : number) :
  sql_eq (of_Z a) x = true -> sql_eq x (of_Z b) = true -> a = b.
Proof.
  destruct x as [|neg|q]; simpl; try discriminate.
  intros Ha Hb. apply Qeq_bool_iff in Ha, Hb.
  pose proof (Qeq_trans _ _ _ Ha Hb) as H.
  unfold Qeq in H. simpl in H. lia.
Qed.

Lemma fresh_rowid (ids : list Z) : ~ In (next_rowid ids) ids.
Proof.
  intros Hin. pose proof (next_rowid_above ids) as H.
  rewrite Forall_forall in H. specialize (H _ Hin). lia.
Qed.

Lemma NoDup_snoc {A : Type} (l : list A) (x : A) :
  NoDup l -> ~ In x l -> NoDup (l ++ [x]).
Proof.
  intros Hl Hx. apply (Permutation_NoDup (Permutation_cons_append l x)).
  now constructor.
Qed.

Lemma same_key_same_event (l : list Event) (e e' : Event) :
  NoDup (map e_id l) -> In e l -> In e' l -> e_id e = e_id e' -> e = e'.
Proof.
  induction l as [|x l IH]; intros Hnd He He' Hid; [contradiction|].
  cbn [map] in Hnd. apply NoDup_cons_iff in Hnd. destruct Hnd as [Hx Hl].
  destruct He as [->|He], He' as [->|He']; try reflexivity.
  - exfalso. apply Hx. rewrite Hid. now apply in_map.
  - exfalso. apply Hx. rewrite <- Hid. now apply in_map.
  - now apply IH.
Qed.

(** No registration names an id that no event carries. *)
Lemma reg_count_unknown (db : Store) (id : Z) :
  references_resolve db -> ~ In id (map e_id (events db)) ->
  reg_count db id = 0.
Proof.
  intros Href Hid.
  assert (Hall : forall r, In r (registrations db) ->
                   sql_eq (r_event_id r) (of_Z id) = false).
  { intros r Hr. destruct (Href r Hr) as [(e & He & Heq) _].
    destruct (sql_eq (r_event_id r) (of_Z id)) eqn:E; [|reflexivity].
    exfalso. apply Hid. rewrite <- (sql_eq_same_integer _ _ _ Heq E).
    now apply in_map. }
  unfold reg_count. revert Hall.
  induction (registrations db) as [|r l IH]; intros Hall; [reflexivity|].
  cbn [filter]. rewrite (Hall r (or_introl eq_refl)).
  apply IH. intros x Hx. apply Hall. now right.
Qed.

Lemma reg_count_other (db : Store) (id : number) (user eid other : Z) :
  sql_eq (of_Z eid) id = true -> other <> eid ->
  reg_count (add_registration db id user) other = reg_count db other.
Proof.
  intros Hid Hother. unfold reg_count. cbn [add_registration registrations].
  rewrite filter_app. cbn [filter r_event_id].
  destruct (sql_eq id (of_Z other)) eqn:E.
  - now elim Hother; rewrite (sql_eq_same_integer _ _ _ Hid E).
  - now rewrite app_nil_r.
Qed.

Lemma num_ge_false_lt (n : Z) (q : Q) :
  num_ge (of_Z n) (Fin q) = false -> (inject_Z n < q)%Q.
Proof.
  intros H. apply Qnot_le_lt. intros Hle.
  apply num_ge_Fin in Hle. congruence.
Qed.

(** One request keeps the keys of the events distinct, the references of
    the registrations resolved and the counts within the capacities. *)
Lemma change_keeps_order (db db' : Store) (issued : list SessionUser)
    (s : Session) :
  consistent db issued -> session_known issued s -> change db s db' ->
  NoDup (map e_id (events db)) /\ references_resolve db
    /\ within_capacity db ->
  NoDup (map e_id (events db')) /\ references_resolve db'
    /\ within_capacity db'.
Proof.
  intros Hc Hs Hchange (Hkey & Href & Hcap).
  destruct Hchange as [|row Hid Hmail|user e q -> Hid Hhost Hq Hrange
                      |user id ev -> Hload Hroom Hnew].
  - exact (conj Hkey (conj Href Hcap)).
  - (* one more user *)
    split; [exact Hkey|]. split; [|exact Hcap].
    intros r Hr. destruct (Href r Hr) as [He (u & Hu & Hru)].
    split; [exact He|]. exists u. split; [|exact Hru].
    cbn [with_user users]. apply in_or_app. now left.
  - (* one more event *)
    split; [|split].
    + cbn [with_event events]. rewrite map_app. cbn [map]. rewrite Hid.
      apply NoDup_snoc; [exact Hkey | apply fresh_rowid].
    + intros r Hr. destruct (Href r Hr) as [(x & Hx & Hrx) Hu].
      split; [|exact Hu]. exists x. split; [|exact Hrx].
      cbn [with_event events]. apply in_or_app. now left.
    + intros x Hx. cbn [with_event events] in Hx. apply in_app_or in Hx.
      destruct Hx as [Hx|[<-|[]]]; [exact (Hcap x Hx)|].
      exists q. split; [exact Hq|].
      change (reg_count (with_event db e) (e_id e))
        with (reg_count db (e_id e)).
      rewrite Hid, (reg_count_unknown db _ Href (fresh_rowid _)).
      destruct Hrange as [Hlo _].
      apply Qlt_le_trans with (y := 1%Q); [reflexivity|].
      rewrite <- (Qplus_0_l 1) at 1. apply Qplus_le_l.
      apply Qle_trans with (y := 1%Q); [discriminate | exact Hlo].
  - (* one more registration *)
    destruct (select_event_Some _ _ _ Hload) as (Hid & Hcount & Hin).
    split; [exact Hkey|]. split.
    + intros r Hr. cbn [add_registration registrations] in Hr.
      apply in_app_or in Hr. destruct Hr as [Hr|[<-|[]]];
        [exact (Href r Hr)|]. cbn [r_event_id r_user_id]. split.
      * exists (event ev). now split.
      * apply Hc. exact Hs.
    + intros e He. cbn [add_registration events] in He.
      destruct (Hcap e He) as (q & Hq & Hlt). exists q. split; [exact Hq|].
      destruct (Z.eq_dec (e_id e) (e_id (event ev))) as [Heq|Hneq].
      * assert (e = event ev) as ->
          by exact (same_key_same_event _ _ _ Hkey He Hin Heq).
        rewrite (reg_count_insert db id (su_id user) _ Hid).
        rewrite inject_Z_plus. apply Qplus_lt_l.
        rewrite Hq, Hcount in Hroom. now apply num_ge_false_lt.
      * now rewrite (reg_count_other db id (su_id user) _ _ Hid Hneq).
Qed.

Lemma reachable_order {ext : Externals} (env : Env) (db : Store)
    (issued : list SessionUser) :
  reachable env db issued ->
  NoDup (map e_id (events db)) /\ references_resolve db
    /\ within_capacity db.
Proof.
  induction 1 as [|db issued s req Hreach IH Hs].
  - split; [constructor|]. split; [intros r []|intros e []].
  - apply (change_keeps_order db _ issued s); try assumption.
    + exact (reachable_consistent env db issued Hreach).
    + apply handle_change.
Qed.

(** ** Invariants of the reachable states *)

(** X1.  A request without a session never adds an event or a
    registration and hands no mail to the transport; on the three routes
    behind [requireAuth] it is redirected to the login page and the store
    stays as it was. *)
Theorem X1_anonymous_requests {ext : Externals} (env : Env) (db : Store)
    (req : Request) :
  let out := handle env db None req in
  events (store out) = events db
  /\ registrations (store out) = registrations db
  /\ mails out = []
  /\ (gated req = true -> out = respond db None (Redirect LoginPage)).
Proof.
  destruct req; cbn [handle gated]; try (repeat split; discriminate).
  - (* signup *)
    destruct (signUp_rich db None body salt) as [(t & ->)|(r & ->)];
      [|repeat split; discriminate].
    rewrite signUp_texts. cbv zeta.
    destruct (_ || _ || _); [repeat split; discriminate|].
    destruct (select_user_by_email _ _); [repeat split; discriminate|].
    unfold insert_user.
    destruct (existsb _ _); repeat split; discriminate.
  - (* login *)
    destruct (logIn_rich db None body) as [(e & p & He & Hp)|(r & ->)];
      [|repeat split; discriminate].
    rewrite (logIn_text db None body e p He Hp).
    destruct (select_user_by_email _ _); [|repeat split; discriminate].
    destruct (negb _); repeat split; discriminate.
  - (* event page *)
    unfold getEvent.
    destruct (select_event _ _); repeat split; discriminate.
Qed.

Lemma X1_anonymous_requests_witness :
  registerForEvent (ext := Sample.externals true) Sample.env_smtp
    (Sample.store_with (of_Z 1)) None "1"
  = respond (Sample.store_with (of_Z 1)) None (Redirect LoginPage).
Proof.
  apply (X1_anonymous_requests (ext := Sample.externals true)
           Sample.env_smtp (Sample.store_with (of_Z 1)) (PostRegister "1")).
  reflexivity.
Defined.

(** X2.  In every state the server can reach, no two rows of
    [registrations] carry the same event and the same user. *)
Theorem X2_registrations_unique {ext : Externals} (env : Env) (db : Store)
    (issued : list SessionUser) :
  reachable env db issued -> unique_pairs (registrations db).
Proof. apply reachable_unique_pairs. Qed.

Lemma X2_registrations_unique_witness :
  unique_pairs (registrations (Sample.store_bob_in (of_Z 1))).
Proof.
  exact (X2_registrations_unique Sample.env_no_smtp _ _ run_full_reachable).
Defined.

(** X3.  In every state the server can reach, the capacity of every
    stored event is a finite number between 1 and 5000. *)
Theorem X3_capacities_in_range {ext : Externals} (env : Env) (db : Store)
    (issued : list SessionUser) (e : Event) :
  reachable env db issued -> In e (events db) ->
  exists q, e_capacity e = Fin q /\ (1 <= q <= 5000)%Q.
Proof.
  intros Hreach Hin.
  pose proof (reachable_capacities env db issued Hreach) as H.
  unfold capacities_in_range in H. rewrite Forall_forall in H.
  exact (H e Hin).
Qed.

Lemma X3_capacities_in_range_witness :
  exists q, of_Z 1 = Fin q /\ (1 <= q <= 5000)%Q.
Proof.
  exact (X3_capacities_in_range Sample.env_no_smtp _ _
           (Sample.meetup (of_Z 1)) run_full_reachable (or_introl eq_refl)).
Defined.

(** X4.  In every state the server can reach, handling one request after
    the other, no event holds more registrations than its capacity
    admits: the count is below the capacity plus one, and at most the
    capacity when that is a whole number. *)
Theorem X4_never_over_capacity {ext : Externals} (env : Env) (db : Store)
    (issued : list SessionUser) (e : Event) :
  reachable env db issued -> In e (events db) ->
  exists q,
    e_capacity e = Fin q
    /\ (inject_Z (reg_count db (e_id e)) < q + 1)%Q
    /\ forall c, (q == inject_Z c)%Q -> reg_count db (e_id e) <= c.
Proof.
  intros Hreach Hin.
  destruct (reachable_order env db issued Hreach) as (_ & _ & Hcap).
  destruct (Hcap e Hin) as (q & Hq & Hlt).
  exists q. split; [exact Hq|]. split; [exact Hlt|].
  intros c Hc. rewrite Hc in Hlt.
  change 1%Q with (inject_Z 1) in Hlt.
  rewrite <- inject_Z_plus, <- Zlt_Qlt in Hlt. lia.
Qed.

Lemma X4_never_over_capacity_witness :
  reg_count (Sample.store_bob_in (of_Z 1)) 1 <= 1.
Proof.
  destruct (X4_never_over_capacity Sample.env_no_smtp _ _
              (Sample.meetup (of_Z 1)) run_full_reachable
              (or_introl eq_refl)) as (q & Hq & _ & Hwhole).
  apply Hwhole. injection Hq as <-. reflexivity.
Defined.

(** X5.  In every state the server can reach, user ids are distinct,
    event ids are distinct, the host of every event is a user of the
    store, and every registration names an event and a user of the
    store, although the schema declares no foreign key. *)
Theorem X5_references_resolve {ext : Externals} (env : Env) (db : Store)
    (issued : list SessionUser) :
  reachable env db issued ->
  NoDup (map u_id (users db))
  /\ NoDup (map e_id (events db))
  /\ (forall e, In e (events db) -> user_exists db (e_host_user_id e))
  /\ (forall r, In r (registrations db) ->
        event_exists db (r_event_id r) /\ user_exists db (r_user_id r)).
Proof.
  intros Hreach.
  destruct (reachable_consistent env db issued Hreach) as [[Hu Hhost] _].
  destruct (reachable_order env db issued Hreach) as (He & Href & _).
  exact (conj Hu (conj He (conj Hhost Href))).
Qed.

Lemma X5_references_resolve_witness :
  event_exists (Sample.store_bob_in (of_Z 1)) (of_Z 1)
  /\ user_exists (Sample.store_bob_in (of_Z 1)) 2.
Proof.
  exact (proj2 (proj2 (proj2
           (X5_references_resolve Sample.env_no_smtp _ _ run_full_reachable)))
           {| r_id := 1; r_event_id := of_Z 1; r_user_id := 2 |}
           (or_introl eq_refl)).
Defined.

(** X6.  No request removes or rewrites a row: after it each table is
    the table before with rows added at its end, and one row at most is
    added over the three tables. *)
Theorem X6_append_only {ext : Externals} (env : Env) (db : Store)
    (s : Session) (req : Request) :
  let db' := store (handle env db s req) in
  extends (users db) (users db')
  /\ extends (events db) (events db')
  /\ extends (registrations db) (registrations db')
  /\ (List.length (users db') + List.length (events db')
      + List.length (registrations db')
      <= List.length (users db) + List.length (events db)
         + List.length (registrations db) + 1)%nat.
Proof.
  cbv zeta.
  assert (Hsame : forall A (l : list A), extends l l)
    by (intros A l; exists []; split; [now rewrite app_nil_r | simpl; lia]).
  assert (Hone : forall A (l : list A) x, extends l (l ++ [x]))
    by (intros A l x; exists [x]; split; [reflexivity | simpl; lia]).
  destruct (handle_change env db s req)
    as [|row _ _|user e q _ _ _ _ _|user id ev _ _ _ _];
    cbn [with_user with_event add_registration users events registrations];
    repeat split; try apply Hsame; try apply Hone;
    rewrite ?length_app; simpl; lia.
Qed.

(** ** Mail *)

Lemma insert_registration_Some (db db' : Store) (id : number) (user : Z) :
  insert_registration db id user = Some db' ->
  db' = add_registration db id user /\ ~ registered db id user.
Proof.
  unfold insert_registration. intros I.
  destruct (existsb _ (registrations db)) eqn:E;
    [destruct id; discriminate I|].
  split; [destruct id; congruence|].
  intros (r & Hin & Hev & Hu).
  apply not_true_iff_false in E. apply E. apply existsb_exists.
  exists r. split; [exact Hin|]. rewrite Hev. now apply Z.eqb_eq.
Qed.

(** X7.  A mail is handed to the transport only by a registration that
    has just been inserted: the request is [POST /events/:id/register] of
    a logged-in user who was not registered, the store it leaves has the
    new row, the mail is the only one, it is addressed to the email of
    the session, and it carries the title, start, location and page of
    the event. *)
Theorem X7_mail_only_after_insert {ext : Externals} (env : Env) (db : Store)
    (s : Session) (req : Request) (m : Mail) :
  In m (mails (handle env db s req)) ->
  exists user params_id ev,
    s = Some user /\ req = PostRegister params_id
    /\ select_event db (Number params_id) = Some ev
    /\ ~ registered db (Number params_id) (su_id user)
    /\ store (handle env db s req)
       = add_registration db (Number params_id) (su_id user)
    /\ mails (handle env db s req) = [m]
    /\ mail_to m = su_email user
    /\ mail_subject m = "Registration confirmed: " ++ e_title (event ev)
    /\ text_event m = e_title (event ev)
    /\ text_when m = e_starts_at (event ev)
    /\ text_where m = e_location (event ev)
    /\ text_link m = (BASE_URL env, Number params_id).
Proof.
  destruct req; cbn [handle].
  - intros [].
  - destruct (signUp_rich db s body salt) as [(t & ->)|(r & ->)];
      [|intros []].
    rewrite signUp_texts. cbv zeta. destruct (_ || _ || _); [intros []|].
    destruct (select_user_by_email _ _); [intros []|].
    unfold insert_user. destruct (existsb _ _); intros [].
  - destruct (logIn_rich db s body) as [(e & p & He & Hp)|(r & ->)];
      [|intros []].
    rewrite (logIn_text db s body e p He Hp).
    destruct (select_user_by_email _ _); [|intros []].
    destruct (negb _); intros [].
  - intros [].
  - unfold newEventForm, requireAuth. destruct s; intros [].
  - destruct s; [|intros []].
    open_createEvent body ltac:(intros []). intros [].
  - unfold getEvent. destruct (select_event _ _); intros [].
  - destruct s as [user|]; [|intros []].
    unfold registerForEvent, requireAuth.
    destruct (select_event db (Number params_id)) as [ev|] eqn:Hload;
      [|intros []].
    destruct (num_ge _ _); [intros []|].
    destruct (insert_registration db (Number params_id) (su_id user))
      as [db'|] eqn:I; [|intros []].
    apply insert_registration_Some in I. destruct I as [-> Hnew].
    unfold sendRegistrationEmail.
    destruct (makeTransport env) as [transporter|];
      cbn [mails store]; [|intros []].
    intros [<-|[]]. exists user, params_id, ev. now repeat split.
Qed.

Lemma X7_mail_only_after_insert_witness :
  exists user,
    Sample.as_session Sample.bob = Some user
    /\ store (registerForEvent (ext := Sample.externals true) Sample.env_smtp
                (Sample.store_with (of_Z 1)) (Sample.as_session Sample.bob)
                "1")
       = add_registration (Sample.store_with (of_Z 1)) (Number "1")
           (su_id user).
Proof.
  destruct (X7_mail_only_after_insert (ext := Sample.externals true)
              Sample.env_smtp (Sample.store_with (of_Z 1))
              (Sample.as_session Sample.bob) (PostRegister "1")
              {| mail_from := "EventHub <no-reply@example.com>";
                 mail_to := "bob@x.com";
                 mail_subject := "Registration confirmed: Meetup";
                 text_event := "Meetup";
                 text_when := "2025-03-01 18:00:00";
                 text_where := "Hall";
                 text_link := ("http://localhost:3000", Number "1") |})
    as (user & params_id & ev & Hs & Hreq & _ & _ & Hstore & _).
  - left. reflexivity.
  - injection Hreq as <-. exists user. split; [exact Hs | exact Hstore].
Defined.

(** ** The event page *)

Lemma select_registration_None (db : Store) (id : number) (user : Z) :
  select_registration db id user = None <-> ~ registered db id user.
Proof.
  unfold select_registration, registered. split.
  - intros F (r & Hin & Hev & Hu).
    apply (find_none _ _ F) in Hin. rewrite Hev, Hu, Z.eqb_refl in Hin.
    discriminate Hin.
  - intros Hnot. destruct (find _ _) as [r|] eqn:F; [|reflexivity].
    apply find_some in F. destruct F as [Hin Hp].
    apply andb_true_iff in Hp. rewrite Z.eqb_eq in Hp.
    elim Hnot. exists r. tauto.
Qed.

Lemma select_event_found (db : Store) (id : number) :
  hosts_present db -> event_exists db id ->
  exists ev, select_event db id = Some ev.
Proof.
  intros Hhosts (e & He & Hid).
  destruct (select_event db id) as [ev|] eqn:F; [now exists ev|].
  exfalso. rewrite <- (select_events_all db Hhosts) in He.
  apply in_map_iff in He. destruct He as (row & <- & Hrow).
  unfold select_event in F. apply (find_none _ _ F) in Hrow. congruence.
Qed.

(** X8.  In every state the server can reach, [GET /events/:id] leaves
    store and session alone.  It answers 404 "Event not found" exactly
    when no event carries the number the parameter denotes, which
    includes every parameter that is no number.  Otherwise it renders
    that event with its current registration count, and the
    already-registered flag is set exactly when the request has a
    session whose user is registered for the event. *)
Theorem X8_event_page {ext : Externals} (env : Env) (db : Store)
    (issued : list SessionUser) (s : Session) (params_id : string) :
  reachable env db issued ->
  let out := getEvent db s params_id in
  store out = db /\ session out = s
  /\ (response out = NotFound Msg.event_not_found <->
      ~ event_exists db (Number params_id))
  /\ (event_exists db (Number params_id) ->
      exists ev flag,
        response out = RenderEvent (Some ev) flag None None
        /\ In (event ev) (events db)
        /\ sql_eq (of_Z (e_id (event ev))) (Number params_id) = true
        /\ row_reg_count ev = reg_count db (e_id (event ev))
        /\ (flag = true <->
            exists user, s = Some user
                         /\ registered db (Number params_id) (su_id user))).
Proof.
  intros Hreach out.
  pose proof (proj1 (reachable_consistent env db issued Hreach)) as Hhosts.
  subst out. unfold getEvent.
  destruct (select_event db (Number params_id)) as [ev|] eqn:F.
  - destruct (select_event_Some _ _ _ F) as (Hid & Hcount & Hin).
    cbn [respond store session response].
    split; [reflexivity|]. split; [reflexivity|]. split.
    + split; [discriminate|]. intros Hno. elim Hno. now exists (event ev).
    + intros _. eexists. eexists. split; [reflexivity|].
      repeat split; try assumption.
      * destruct s as [user|]; [|discriminate].
        destruct (select_registration db (Number params_id) (su_id user))
          eqn:R; [|discriminate].
        intros _. exists user. split; [reflexivity|].
        unfold select_registration in R. apply find_some in R.
        destruct R as [Hr Hp]. apply andb_true_iff in Hp.
        rewrite Z.eqb_eq in Hp.
        exists r. tauto.
      * intros (user & -> & Hreg).
        destruct (select_registration db (Number params_id) (su_id user))
          eqn:R; [reflexivity|].
        now apply select_registration_None in R.
  - cbn [respond store session response].
    split; [reflexivity|]. split; [reflexivity|].
    assert (Hno : ~ event_exists db (Number params_id)).
    { intros Hex. destruct (select_event_found db _ Hhosts Hex) as (ev & Hev).
      congruence. }
    split; [now split|]. intros Hex. now elim Hno.
Qed.

Lemma X8_event_page_witness :
  let db := Sample.store_bob_in (of_Z 1) in
  response (getEvent db (Sample.as_session Sample.bob) "many")
  = NotFound Msg.event_not_found
  /\ exists ev flag,
       response (getEvent db (Sample.as_session Sample.bob) " 1 ")
       = RenderEvent (Some ev) flag None None
       /\ row_reg_count ev = 1.
Proof.
  split.
  - apply (X8_event_page Sample.env_no_smtp _ _
             (Sample.as_session Sample.bob) "many" run_full_reachable).
    intros (e & [<-|[]] & Hid). discriminate Hid.
  - destruct (X8_event_page Sample.env_no_smtp _ _
                (Sample.as_session Sample.bob) " 1 " run_full_reachable)
      as (_ & _ & _ & Hpage).
    destruct Hpage as (ev & flag & Hresp & [<-|[]] & _ & Hcount & _).
    + exists (Sample.meetup (of_Z 1)). split; [now left | reflexivity].
    + exists ev, flag. split; [exact Hresp | exact Hcount].
Defined.

(** X9.  After a registration went through, the page of the event shows
    the same user as registered and the count one higher than the
    registration found it. *)
Theorem X9_page_after_registration {ext : Externals} (env : Env) (db : Store)
    (user : SessionUser) (params_id : string) (ev : EventRow) :
  select_event db (Number params_id) = Some ev ->
  num_ge (of_Z (row_reg_count ev)) (e_capacity (event ev)) = false ->
  ~ registered db (Number params_id) (su_id user) ->
  let db' := store (registerForEvent env db (Some user) params_id) in
  exists ev',
    getEvent db' (Some user) params_id
    = respond db' (Some user) (RenderEvent (Some ev') true None None)
    /\ event ev' = event ev
    /\ host_name ev' = host_name ev
    /\ row_reg_count ev' = row_reg_count ev + 1.
Proof.
  intros Hload Hroom Hnew db'.
  destruct (register_admitted env db user params_id ev Hload Hroom Hnew)
    as (Hstore & _).
  destruct (refreshed_row db user params_id ev Hload) as (Hsel & Hcount).
  pose proof (registered_after_insert db user params_id ev Hload) as Hreg.
  subst db'. rewrite Hstore.
  exists (recount (add_registration db (Number params_id) (su_id user)) ev).
  split; [|now repeat split].
  unfold getEvent. rewrite Hsel.
  destruct (select_registration _ _ _) eqn:R; [reflexivity|].
  now apply select_registration_None in R.
Qed.

Lemma X9_page_after_registration_witness :
  let db' := store (registerForEvent (ext := Sample.externals true)
                      Sample.env_no_smtp (Sample.store_with (of_Z 2))
                      (Sample.as_session Sample.bob) "1") in
  exists ev',
    getEvent db' (Sample.as_session Sample.bob) "1"
    = respond db' (Sample.as_session Sample.bob)
        (RenderEvent (Some ev') true None None)
    /\ row_reg_count ev' = 1.
Proof.
  destruct (X9_page_after_registration (ext := Sample.externals true)
              Sample.env_no_smtp (Sample.store_with (of_Z 2))
              (Sample.logged_in Sample.bob) "1"
              (Sample.meetup_row (of_Z 2) 0))
    as (ev' & Hpage & _ & _ & Hcount).
  - reflexivity.
  - reflexivity.
  - intros (r & [] & _).
  - exists ev'. split; [exact Hpage | exact Hcount].
Defined.

Lemma sql_eq_of_Z (a b : Z) : sql_eq (of_Z a) (of_Z b) = (a =? b).
Proof. unfold sql_eq, of_Z, Qeq_bool. simpl. now rewrite !Z.mul_1_r. Qed.

Lemma find_app_skip {A : Type} (p : A -> bool) (l1 l2 : list A) :
  (forall x, In x l1 -> p x = false) -> find p (l1 ++ l2) = find p l2.
Proof.
  induction l1 as [|x l1 IH]; intros H; [reflexivity|]. cbn [app find].
  rewrite (H x (or_introl eq_refl)). apply IH. intros y Hy. apply H.
  now right.
Qed.

Section Created.
Variables (db : Store) (user : SessionUser) (body : TextBody).

(** The event [POST /events/new] inserts, once it inserts one. *)
Let created (starts_at : string) : Event :=
  {| e_id := next_rowid (map e_id (events db));
     e_host_user_id := su_id user;
     e_title := trim (or_default (body "title") "");
     e_description := trim (or_default (body "description") "");
     e_location := trim (or_default (body "location") "");
     e_starts_at := starts_at;
     e_capacity := Number_or (body "capacity") 50 |}.

Lemma createEvent_created (id : Z) :
  response (createEvent db (Some user) body) = Redirect (EventPage id) ->
  exists starts_at,
    body "starts_at" = Some starts_at
    /\ id = next_rowid (map e_id (events db))
    /\ store (createEvent db (Some user) body)
       = with_event db (created starts_at).
Proof.
  intros Hresp.
  destruct (string_dec (trim (or_default (body "title") "")) "") as [Ht|Ht];
    [rewrite createEvent_missing_field in Hresp by tauto; discriminate|].
  destruct (string_dec (trim (or_default (body "description") "")) "")
    as [Hd|Hd];
    [rewrite createEvent_missing_field in Hresp by tauto; discriminate|].
  destruct (string_dec (trim (or_default (body "location") "")) "")
    as [Hl|Hl];
    [rewrite createEvent_missing_field in Hresp by tauto; discriminate|].
  destruct (body "starts_at") as [starts_at|] eqn:Hs;
    [|rewrite createEvent_missing_field in Hresp by tauto; discriminate].
  destruct (string_dec starts_at "") as [Hs'|Hs'];
    [rewrite createEvent_missing_field in Hresp
       by (rewrite Hs, Hs'; tauto); discriminate|].
  exists starts_at. split; [reflexivity|].
  rewrite (createEvent_capacity_rule db user body starts_at Ht Hd Hl Hs Hs')
    in Hresp |- *.
  unfold created.
  destruct (Number_or (body "capacity") 50) as [|neg|q];
    try discriminate Hresp.
  destruct (Qle_bool 1 q && Qle_bool q 5000); [|discriminate Hresp].
  cbn [respond response store] in Hresp |- *.
  injection Hresp as <-. now split.
Qed.

End Created.

(** X10.  In a state the server can reach, when [POST /events/new] of a
    logged-in user redirects to the page of an event, that page exists:
    [GET /events/:id] with a parameter that denotes the id renders the
    event with the trimmed title, description and location, the start
    text as sent, the host's stored name, no registration and the
    already-registered flag cleared, for whoever asks. *)
Theorem X10_page_of_created_event {ext : Externals} (env : Env) (db : Store)
    (issued : list SessionUser) (user : SessionUser) (body : TextBody)
    (id : Z)
    (viewer : Session) (params_id : string) :
  reachable env db issued -> In user issued ->
  response (createEvent db (Some user) body) = Redirect (EventPage id) ->
  Number params_id = of_Z id ->
  let db' := store (createEvent db (Some user) body) in
  exists host starts_at,
    In host (users db) /\ u_id host = su_id user
    /\ body "starts_at" = Some starts_at
    /\ getEvent db' viewer params_id
       = respond db' viewer
           (RenderEvent
              (Some {| event :=
                         {| e_id := id;
                            e_host_user_id := su_id user;
                            e_title := trim (or_default (body "title") "");
                            e_description :=
                              trim (or_default (body "description") "");
                            e_location :=
                              trim (or_default (body "location") "");
                            e_starts_at := starts_at;
                            e_capacity := Number_or (body "capacity") 50 |};
                       host_name := u_name host;
                       row_reg_count := 0 |})
              false None None).
Proof.
  intros Hreach Huser Hresp Hparam db'.
  destruct (createEvent_created db user body id Hresp)
    as (starts_at & Hs & -> & Hstore).
  destruct (reachable_consistent env db issued Hreach) as [[Hkey _] Hsess].
  destruct (Hsess user Huser) as (host & Hhost & Hid).
  destruct (reachable_order env db issued Hreach) as (_ & Href & _).
  pose proof (fresh_rowid (map e_id (events db))) as Hfresh.
  exists host, starts_at. repeat split; try assumption.
  subst db'. rewrite Hstore. unfold getEvent. rewrite Hparam.
  set (new := {| e_id := next_rowid (map e_id (events db)) |}).
  assert (Hsel : select_event (with_event db new) (of_Z (e_id new))
                 = Some {| event := new; host_name := u_name host;
                           row_reg_count := 0 |}).
  { unfold select_event, select_events.
    cbn [with_event events users]. rewrite flat_map_app.
    rewrite find_app_skip.
    - cbn [flat_map]. rewrite app_nil_r.
      change (e_host_user_id new) with (su_id user).
      rewrite <- Hid, (filter_by_key _ host Hkey Hhost).
      cbn [map find event]. rewrite sql_eq_of_Z, Z.eqb_refl.
      do 2 f_equal.
      exact (reg_count_unknown db _ Href Hfresh).
    - intros row Hrow. apply in_flat_map in Hrow.
      destruct Hrow as (e & He & Hrow). apply in_map_iff in Hrow.
      destruct Hrow as (u & <- & _). cbn [event].
      rewrite sql_eq_of_Z. apply Z.eqb_neq. intros Heq.
      apply Hfresh. cbn [e_id new] in Heq. rewrite <- Heq.
      now apply in_map. }
  change (next_rowid (map e_id (events db))) with (e_id new) at 1.
  rewrite Hsel.
  assert (Hnone : forall u, select_registration (with_event db new)
                              (of_Z (e_id new)) u = None).
  { intros u. apply select_registration_None.
    intros (r & Hr & Hev & _). cbn [with_event registrations] in Hr.
    destruct (Href r Hr) as [(e & He & Heq) _].
    apply Hfresh. cbn [e_id new] in Hev.
    rewrite <- (sql_eq_same_integer _ _ _ Heq Hev). now apply in_map. }
  destruct viewer as [v|]; [rewrite Hnone|]; reflexivity.
Qed.

Lemma X10_page_of_created_event_witness :
  let db := fst Sample.run_signups in
  let body := Sample.event_form " Saturday " "0x10" in
  let db' := store (createEvent db (Sample.as_session Sample.alice) body) in
  exists host starts_at,
    In host (users db) /\ u_id host = 1
    /\ body "starts_at" = Some starts_at
    /\ getEvent db' None "1"
       = respond db' None
           (RenderEvent
              (Some {| event :=
                         {| e_id := 1; e_host_user_id := 1;
                            e_title := "Meetup"; e_description := "Monthly";
                            e_location := "Hall"; e_starts_at := starts_at;
                            e_capacity := of_Z 16 |};
                       host_name := u_name host; row_reg_count := 0 |})
              false None None).
Proof.
  exact (X10_page_of_created_event Sample.env_no_smtp _ _
           (Sample.logged_in Sample.alice)
           (Sample.event_form " Saturday " "0x10") 1 None "1"
           run_signups_reachable (or_intror (or_introl eq_refl))
           eq_refl eq_refl).
Defined.

(** ** Signing up, then logging in *)

(** X11.  When [POST /signup] succeeds, and bcrypt accepts the password
    against the hash it made of it, a later [POST /login] with the same
    password and an email that normalizes to the same text, whatever its
    letter case and surrounding blanks, succeeds and binds the session to
    the very user the signup created. *)
Theorem X11_login_after_signup {ext : Externals} (db : Store) (s s' : Session)
    (body body' : TextBody) (salt : string) :
  let password := or_default (body "password") "" in
  let email := toLowerCase (trim (or_default (body "email") "")) in
  bcrypt_compare password (bcrypt_hash password 12 salt) = true ->
  response (signUp db s body salt) = Redirect Home ->
  toLowerCase (trim (or_default (body' "email") "")) = email ->
  or_default (body' "password") "" = password ->
  let created := signUp db s body salt in
  session created
  = Some {| su_id := next_rowid (map u_id (users db));
            su_name := trim (or_default (body "name") "");
            su_email := email |}
  /\ logIn (store created) s' body'
     = respond (store created) (session created) (Redirect Home).
Proof.
  intros password email Hbcrypt Hresp Hmail Hpw created. subst created.
  destruct (string_dec (trim (or_default (body "name") "")) "") as [Hn|Hn];
    [rewrite signUp_incomplete in Hresp by tauto; discriminate|].
  destruct (string_dec email "") as [He|He];
    [rewrite signUp_incomplete in Hresp by tauto; discriminate|].
  destruct (string_dec password "") as [Hp|Hp];
    [rewrite signUp_incomplete in Hresp by tauto; discriminate|].
  rewrite (signUp_complete db s body salt Hn He Hp) in Hresp |- *.
  fold email password in Hresp |- *.
  destruct (select_user_by_email db email) as [u|] eqn:F;
    [discriminate Hresp|].
  cbn [respond store session]. split; [reflexivity|].
  rewrite (logIn_text _ s' body' _ _ (or_text_texts body' "email" "")
             (or_text_texts body' "password" "")).
  rewrite Hmail, Hpw.
  unfold select_user_by_email in F |- *. cbn [users].
  rewrite find_app_skip by exact (find_none _ _ F).
  cbn [find u_email]. rewrite String.eqb_refl.
  cbn [u_password_hash]. now rewrite Hbcrypt.
Qed.

Lemma X11_login_after_signup_witness :
  let created := signUp (ext := Sample.externals true) empty_store None
                   Sample.alice_form "s1" in
  logIn (ext := Sample.externals true) (store created) None
    (form [("email", "  ALICE@x.COM "); ("password", "pw")])
  = respond (store created) (Sample.as_session Sample.alice) (Redirect Home).
Proof.
  exact (proj2 (X11_login_after_signup (ext := Sample.externals true)
                  empty_store None None Sample.alice_form
                  (form [("email", "  ALICE@x.COM "); ("password", "pw")])
                  "s1" eq_refl eq_refl eq_refl eq_refl)).
Defined.

(** ** The capacity field *)

(** X12.  With the required fields present, [POST /events/new] inserts
    the event and redirects to its page exactly when
    [Number(capacity || 50)] is a finite number between 1 and 5000; in
    every other case it answers "Capacity must be 1-5000." and stores
    nothing. *)
Theorem X12_capacity_gate (db : Store) (user : SessionUser)
    (body : TextBody) (starts_at : string) :
  trim (or_default (body "title") "") <> "" ->
  trim (or_default (body "description") "") <> "" ->
  trim (or_default (body "location") "") <> "" ->
  body "starts_at" = Some starts_at -> starts_at <> "" ->
  let out := createEvent db (Some user) body in
  let admitted :=
    exists q, Number_or (body "capacity") 50 = Fin q /\ (1 <= q <= 5000)%Q in
  (admitted ->
   response out = Redirect (EventPage (next_rowid (map e_id (events db))))
   /\ List.length (events (store out)) = S (List.length (events db)))
  /\ (~ admitted ->
      out = respond db (Some user) (RenderNewEvent (Some Msg.capacity_range))).
Proof.
  intros Ht Hd Hl Hs Hs' out admitted. subst out admitted.
  rewrite (createEvent_capacity_rule db user body starts_at Ht Hd Hl Hs Hs').
  destruct (Number_or (body "capacity") 50) as [|neg|q].
  - split; [intros (q & Hq & _); discriminate Hq | reflexivity].
  - split; [intros (q & Hq & _); discriminate Hq | reflexivity].
  - destruct (Qle_bool 1 q) eqn:Hlo, (Qle_bool q 5000) eqn:Hhi;
      cbn [andb]; split;
      try (intros (q' & Hq & Hlo' & Hhi'); injection Hq as <-;
           apply Qle_bool_iff in Hlo', Hhi'; congruence);
      try reflexivity.
    + intros _. cbn [respond response store events].
      split; [reflexivity|]. rewrite length_app. simpl. lia.
    + intros Hno. elim Hno. exists q. apply Qle_bool_iff in Hlo, Hhi.
      now repeat split.
Qed.

Lemma X12_capacity_gate_witness :
  let run capacity :=
    createEvent (Sample.store_with (of_Z 1)) (Sample.as_session Sample.alice)
      (Sample.event_form "2025-06-01T10:00" capacity) in
  response (run "2.5e3") = Redirect (EventPage 2)
  /\ run "5000.5"
     = respond (Sample.store_with (of_Z 1)) (Sample.as_session Sample.alice)
         (RenderNewEvent (Some Msg.capacity_range)).
Proof.
  split.
  - apply (X12_capacity_gate (Sample.store_with (of_Z 1))
             (Sample.logged_in Sample.alice)
             (Sample.event_form "2025-06-01T10:00" "2.5e3")
             "2025-06-01T10:00");
      try discriminate; try reflexivity.
    exists 2500%Q. split; [reflexivity|]. split; discriminate.
  - apply (X12_capacity_gate (Sample.store_with (of_Z 1))
             (Sample.logged_in Sample.alice)
             (Sample.event_form "2025-06-01T10:00" "5000.5")
             "2025-06-01T10:00");
      try discriminate; try reflexivity.
    intros (q & Hq & _ & Hhi). injection Hq as <-.
    apply Hhi. reflexivity.
Defined.

(** X13.  A capacity field of blanks only is not the empty field: it is
    not replaced by 50 but read as the number 0, and the handler answers
    "Capacity must be 1-5000." and stores nothing. *)
Theorem X13_blank_capacity (db : Store) (user : SessionUser)
    (body : TextBody) (starts_at capacity : string) :
  trim (or_default (body "title") "") <> "" ->
  trim (or_default (body "description") "") <> "" ->
  trim (or_default (body "location") "") <> "" ->
  body "starts_at" = Some starts_at -> starts_at <> "" ->
  body "capacity" = Some capacity -> capacity <> "" -> trim capacity = "" ->
  createEvent db (Some user) body
  = respond db (Some user) (RenderNewEvent (Some Msg.capacity_range)).
Proof.
  intros Ht Hd Hl Hs Hs' Hc Hc' Hblank.
  rewrite (createEvent_capacity_rule db user body starts_at Ht Hd Hl Hs Hs').
  rewrite Hc. unfold Number_or. apply truthy_true in Hc'. rewrite Hc'.
  unfold Number. now rewrite Hblank.
Qed.

Lemma X13_blank_capacity_witness :
  createEvent (Sample.store_with (of_Z 1)) (Sample.as_session Sample.alice)
    (Sample.event_form "2025-06-01T10:00" "  ")
  = respond (Sample.store_with (of_Z 1)) (Sample.as_session Sample.alice)
      (RenderNewEvent (Some Msg.capacity_range)).
Proof.
  apply (X13_blank_capacity (Sample.store_with (of_Z 1))
           (Sample.logged_in Sample.alice)
           (Sample.event_form "2025-06-01T10:00" "  ")
           "2025-06-01T10:00" "  ");
    try discriminate; reflexivity.
Defined.

(** ** Start texts SQLite cannot read *)

(** X14.  In a state the server can reach, [GET /] lists the events
    whose start text [datetime] cannot read before all the others,
    whatever the sorter does with equal keys: in the list, whatever
    stands before an event of unreadable start text has an unreadable
    start text itself. *)
Theorem X14_unreadable_start_texts {ext : Externals} (env : Env) (db : Store)
    (issued : list SessionUser) (s : Session) :
  reachable env db issued ->
  exists rows,
    listEvents db s = respond db s (RenderIndex rows)
    /\ Permutation (map event rows) (events db)
    /\ forall l1 e l2,
         map event rows = (l1 ++ e :: l2)%list ->
         datetime (e_starts_at e) = None ->
         forall x, In x l1 -> datetime (e_starts_at x) = None.
Proof.
  intros Hreach.
  pose proof (proj1 (reachable_consistent env db issued Hreach)) as Hhosts.
  destruct (listEvents_ordered db s Hhosts)
    as (rows & Hresp & Hperm & Hsorted & _).
  exists rows. split; [exact Hresp|]. split; [exact Hperm|].
  intros l1 e l2 Hrows Hnull. rewrite Hrows in Hsorted.
  exact (sorted_nulls_first start_key l1 l2 e Hsorted Hnull).
Qed.

Lemma X14_unreadable_start_texts_witness :
  let db := fst (Sample.run_three true "tomorrow" "2025-06-01T10:00"
                   "next week") in
  response (listEvents (ext := Sample.sqlite true) db None)
  = RenderIndex
      (map (fun e => {| event := e; host_name := "Alice";
                        row_reg_count := 0 |})
         [Sample.talk 3 "next week"; Sample.talk 1 "tomorrow";
          Sample.talk 2 "2025-06-01T10:00"])
  /\ datetime (Externals := Sample.sqlite true) "tomorrow" = None
  /\ datetime (Externals := Sample.sqlite true) "next week" = None.
Proof.
  intros db.
  pose proof (reachable_request (ext := Sample.sqlite true)
                Sample.env_no_smtp _ _ None
                (PostSignup Sample.alice_form "s")
                (reachable_start _) I) as st1.
  pose proof (reachable_request Sample.env_no_smtp _ _
                (Sample.as_session Sample.alice)
                (PostNewEvent (Sample.talk_form "tomorrow"))
                st1 (or_introl eq_refl)) as st2.
  pose proof (reachable_request Sample.env_no_smtp _ _
                (Sample.as_session Sample.alice)
                (PostNewEvent (Sample.talk_form "2025-06-01T10:00"))
                st2 (or_introl eq_refl)) as st3.
  pose proof (reachable_request Sample.env_no_smtp _ _
                (Sample.as_session Sample.alice)
                (PostNewEvent (Sample.talk_form "next week"))
                st3 (or_introl eq_refl)) as st4.
  destruct (X14_unreadable_start_texts Sample.env_no_smtp _ _ None st4)
    as (rows & Hresp & _ & Hfirst).
  assert (Hrows : map event rows
                  = [Sample.talk 3 "next week"; Sample.talk 1 "tomorrow";
                     Sample.talk 2 "2025-06-01T10:00"]).
  { apply (f_equal response) in Hresp. cbn [respond response] in Hresp.
    injection Hresp as <-. vm_compute. reflexivity. }
  split; [vm_compute; reflexivity|]. split; [|reflexivity].
  exact (Hfirst [Sample.talk 3 "next week"] (Sample.talk 1 "tomorrow")
           [Sample.talk 2 "2025-06-01T10:00"] Hrows eq_refl
           (Sample.talk 3 "next week") (or_introl eq_refl)).
Defined.

(** ** Registering for an event that is not there *)

(** X15.  In a state the server can reach, [POST /events/:id/register]
    of a logged-in user answers 404 "Event not found" exactly when no
    event carries the number the parameter denotes, and then stores
    nothing and sends nothing. *)
Theorem X15_register_unknown_event {ext : Externals} (env : Env) (db : Store)
    (issued : list SessionUser) (user : SessionUser) (params_id : string) :
  reachable env db issued ->
  let out := registerForEvent env db (Some user) params_id in
  (response out = NotFound Msg.event_not_found <->
   ~ event_exists db (Number params_id))
  /\ (~ event_exists db (Number params_id) ->
      out = respond db (Some user) (NotFound Msg.event_not_found)).
Proof.
  intros Hreach out.
  pose proof (proj1 (reachable_consistent env db issued Hreach)) as Hhosts.
  assert (Hmiss : ~ event_exists db (Number params_id) ->
                  out = respond db (Some user) (NotFound Msg.event_not_found)).
  { intros Hno. subst out. unfold registerForEvent, requireAuth.
    destruct (select_event db (Number params_id)) as [ev|] eqn:F;
      [|reflexivity].
    elim Hno. destruct (select_event_Some _ _ _ F) as (Hid & _ & Hin).
    now exists (event ev). }
  split; [|exact Hmiss]. split; [|intros Hno; now rewrite (Hmiss Hno)].
  intros Hresp Hex.
  destruct (select_event_found db _ Hhosts Hex) as (ev & Hev).
  subst out. unfold registerForEvent, requireAuth in Hresp.
  rewrite Hev in Hresp.
  destruct (num_ge _ _); [discriminate Hresp|].
  destruct (insert_registration _ _ _); [|discriminate Hresp].
  destruct (sendRegistrationEmail _ _ _ _ _ _). discriminate Hresp.
Qed.

Lemma X15_register_unknown_event_witness :
  registerForEvent (ext := Sample.externals true) Sample.env_no_smtp
    (Sample.store_bob_in (of_Z 1)) (Sample.as_session Sample.alice) "2"
  = respond (Sample.store_bob_in (of_Z 1)) (Sample.as_session Sample.alice)
      (NotFound Msg.event_not_found).
Proof.
  apply (proj2 (X15_register_unknown_event Sample.env_no_smtp _ _
                  (Sample.logged_in Sample.alice) "2" run_full_reachable)).
  intros (e & [<-|[]] & Hid). discriminate Hid.
Defined.

(** ** The transport options *)

(** X16.  [makeTransport] yields no transport exactly when SMTP_HOST is
    unset or empty.  A transport it yields has the port 465 when
    SMTP_PORT is unset or empty, and is secure exactly when SMTP_SECURE
    is unset, empty or the very text "true": any other text, "TRUE"
    included, switches the secure flag off. *)
Theorem X16_transport_options (env : Env) :
  (makeTransport env = None <->
   env "SMTP_HOST" = None \/ env "SMTP_HOST" = Some "")
  /\ forall t, makeTransport env = Some t ->
       env "SMTP_HOST" = Some (host t)
       /\ (env "SMTP_PORT" = None \/ env "SMTP_PORT" = Some "" ->
           port t = of_Z 465)
       /\ (secure t = true <->
           env "SMTP_SECURE" = None \/ env "SMTP_SECURE" = Some ""
           \/ env "SMTP_SECURE" = Some "true").
Proof.
  unfold makeTransport. split.
  - destruct (env "SMTP_HOST") as [[|c h]|]; cbn; split;
      try discriminate; intuition discriminate.
  - intros t. destruct (env "SMTP_HOST") as [[|c h]|]; cbn;
      try discriminate.
    intros Ht. injection Ht as <-. cbn [host port secure].
    split; [reflexivity|]. split.
    + intros [-> | ->]; reflexivity.
    + destruct (env "SMTP_SECURE") as [[|c' x]|]; cbn [or_default truthy].
      * split; [tauto | reflexivity].
      * rewrite String.eqb_eq. split; [intros ->; tauto|].
        intros [H|[H|H]]; congruence.
      * split; [tauto | reflexivity].
Qed.

Lemma X16_transport_options_witness :
  exists t,
    makeTransport
      (Sample.env_of [("SMTP_HOST", "smtp.example.com");
                      ("SMTP_SECURE", "TRUE")]) = Some t
    /\ port t = of_Z 465 /\ secure t <> true.
Proof.
  eexists. split; [reflexivity|].
  destruct (proj2 (X16_transport_options
                     (Sample.env_of [("SMTP_HOST", "smtp.example.com");
                                     ("SMTP_SECURE", "TRUE")]))
              _ eq_refl) as (_ & Hport & Hsecure).
  split; [apply Hport; now left|].
  intros Hs. apply Hsecure in Hs.
  destruct Hs as [H|[H|H]]; discriminate H.
Defined.

(** ** Sessions *)

Lemma handle_keeps_users {ext : Externals} (env : Env) (db : Store)
    (s : Session) (req : Request) (u : User) :
  In u (users db) -> In u (users (store (handle env db s req))).
Proof.
  intros Hu. destruct (handle_change env db s req);
    cbn [with_user with_event add_registration users]; try assumption.
  apply in_or_app. now left.
Qed.

Lemma handle_session {ext : Externals} (env : Env) (db : Store) (s : Session)
    (req : Request) :
  let out := handle env db s req in
  session out = s \/ session out = None
  \/ exists u, In u (users (store out)) /\ session out = Some (session_of u).
Proof.
  destruct req; cbn [handle]; try (now left).
  - destruct (signUp_rich db s body salt) as [(t & ->)|(r & ->)];
      [|now left].
    rewrite signUp_texts. cbv zeta. destruct (_ || _ || _); [now left|].
    destruct (select_user_by_email _ _); [now left|].
    unfold insert_user. destruct (existsb _ _); [now left|].
    right. right. eexists. cbn [respond store session users]. split.
    + apply in_or_app. right. now left.
    + reflexivity.
  - destruct (logIn_rich db s body) as [(e & p & He & Hp)|(r & ->)];
      [|now left].
    rewrite (logIn_text db s body e p He Hp).
    destruct (select_user_by_email _ _) as [u|] eqn:F; [|now left].
    destruct (negb _); [now left|]. right. right. exists u.
    split; [|reflexivity]. exact (proj1 (select_user_by_email_Some _ _ _ F)).
  - right. now left.
  - unfold newEventForm, requireAuth. destruct s; now left.
  - destruct s; [|now left].
    open_createEvent body ltac:(now left). now left.
  - unfold getEvent. destruct (select_event _ _); now left.
  - left. apply registerForEvent_session.
Qed.

(** X17.  In every state the server can reach, each session it has
    issued carries the id, the name and the email of one user row of the
    store: what [req.session.user] says about the user is what the
    table says. *)
Theorem X17_sessions_name_users {ext : Externals} (env : Env) (db : Store)
    (issued : list SessionUser) (user : SessionUser) :
  reachable env db issued -> In user issued ->
  exists u, In u (users db) /\ user = session_of u.
Proof.
  intros Hreach. revert user.
  induction Hreach as [|db issued s req _ IH Hs]; intros user Hin;
    [destruct Hin|].
  assert (Hold : forall v, In v issued ->
            exists u, In u (users (store (handle env db s req)))
                      /\ v = session_of u).
  { intros v Hv. destruct (IH v Hv) as (u & Hu & ->).
    exists u. split; [now apply handle_keeps_users | reflexivity]. }
  destruct (handle_session env db s req) as [H|[H|(u & Hu & H)]];
    rewrite H in Hin.
  - destruct s as [v|]; cbn [issue] in Hin; [|now apply Hold].
    destruct Hin as [<-|Hin]; [now apply Hold | now apply Hold].
  - now apply Hold.
  - destruct Hin as [<-|Hin]; [now exists u | now apply Hold].
Qed.

Lemma X17_sessions_name_users_witness :
  exists u, In u (users (Sample.store_bob_in (of_Z 1)))
            /\ Sample.logged_in Sample.bob = session_of u.
Proof.
  exact (X17_sessions_name_users Sample.env_no_smtp _ _
           (Sample.logged_in Sample.bob) run_full_reachable
           (or_introl eq_refl)).
Defined.
